(** * yasa/others.py: helper functions for 1-D and 2-D EEG data

    A shallow embedding of [moving_transform], [_zerocrossings],
    [trimbothstd], [sliding_window] and [get_centered_indices], together
    with the NumPy primitives they call, and the properties of these
    five functions.

    Conventions of the model.
    - Python [int]s and NumPy [int64] values are [Z]; array positions and
      sample counts stay far below [2^63], so no integer wraps.
    - Python [float]s and NumPy [float64] used for durations, rates and time
      stamps are the kernel's binary64 numbers ([PrimFloat.float]), so
      [/], [*], [-], [+] round exactly as IEEE-754 does in the source.
    - Signal samples are real numbers ([R]); the reductions of the array
      library ([mean], [std]) are modelled by their mathematical contract,
      with NaN made explicit ([NaN] below).
    - A raised exception is [Raise e]; a normal return is [Ok v]. *)

From Stdlib Require Import ZArith List String Floats Reals Lia Lra Permutation Sorted.
From stdpp Require Import base option list sorting.
Import ListNotations.

Open Scope Z_scope.

(** ** Python values and exceptions *)

Inductive exn : Set :=
| AssertionError
| ValueError
| IndexError
| TypeError
| OverflowError
| ZeroDivisionError.

Inductive result (A : Type) : Type :=
| Ok (a : A)
| Raise (e : exn).
Arguments Ok {A} a.
Arguments Raise {A} e.

Definition bind {A B : Type} (m : result A) (k : A -> result B) : result B :=
  match m with
  | Ok a => k a
  | Raise e => Raise e
  end.

Notation "'let*' x ':=' m 'in' k" := (bind m (fun x => k))
  (at level 10, x pattern, m at level 100, k at level 200).

(** Splits [H : bind m k = Ok _] into the value [x] of [m], the equation
    [E : m = Ok x], and the rest of the computation. *)
Tactic Notation "bind_ok" hyp(H) "as" ident(x) ident(E) :=
  match type of H with
  | bind ?m _ = Ok _ =>
      destruct m as [x|] eqn:E; cbn [bind] in H; [|discriminate H]
  end.

(** [assert c] *)
Definition py_assert (c : bool) : result unit :=
  if c then Ok tt else Raise AssertionError.

(** A Python number as the [isinstance] tests of the source see it. *)
Inductive pynum : Set :=
| PyInt (z : Z)
| PyFloat (f : float).

(** ** binary64 helpers *)

(** The conversion of an integer to [float64]: the binary64 number
    nearest to [z], ties to even (the value of [float(z)] and of the C
    cast [int64 -> double]); exact up to [2^53] in magnitude, and
    [-2^63] converts to [-9223372036854775808.0]. *)
Definition Z2float (z : Z) : float :=
  SF2Prim (binary_normalize prec emax z 0 false).

(** The integer part of a finite float, rounded toward zero; [None] for
    NaN and the infinities. *)
Definition float_trunc (f : float) : option Z :=
  match Prim2SF f with
  | S754_zero _ => Some 0
  | S754_finite s m e =>
      let a := Z.shiftl (Zpos m) e in
      Some (if s then - a else a)
  | S754_infinity _ | S754_nan => None
  end.

(** The smallest integer above or equal to a finite float. *)
Definition float_ceil (f : float) : option Z :=
  match Prim2SF f with
  | S754_zero _ => Some 0
  | S754_finite s m e => Some (- Z.shiftl (if s then Zpos m else Zneg m) e)
  | S754_infinity _ | S754_nan => None
  end.

(** The largest integer below or equal to a finite float. *)
Definition float_floor (f : float) : option Z :=
  match Prim2SF f with
  | S754_zero _ => Some 0
  | S754_finite s m e => Some (Z.shiftl (if s then Zneg m else Zpos m) e)
  | S754_infinity _ | S754_nan => None
  end.

(** [f.is_integer()] *)
Definition float_is_integer (f : float) : bool :=
  match Prim2SF f with
  | S754_zero _ => true
  | S754_finite _ m e =>
      (0 <=? e) || (Z.land (Zpos m) (Z.ones (- e)) =? 0)
  | S754_infinity _ | S754_nan => false
  end.

Definition int64_min : Z := - 2 ^ 63.
Definition int64_max : Z := 2 ^ 63 - 1.

(** The C cast [double -> int64] behind [ndarray.astype(int)]: truncation
    toward zero; NaN, infinities and values outside the int64 range give
    the "integer indefinite" value [-2^63] of the x86-64 conversion. *)
Definition astype_int (f : float) : Z :=
  match float_trunc f with
  | Some z => if (int64_min <=? z) && (z <=? int64_max) then z else int64_min
  | None => int64_min
  end.

(** ** Python sequences *)

(** A slice bound as [slice.indices] normalises it (step 1): a negative
    bound counts from the end, and the result is clipped into [[0, n]]. *)
Definition slice_bound (n v : Z) : Z :=
  let v := if v <? 0 then v + n else v in
  if v <? 0 then 0 else if n <? v then n else v.

(** [l[b:e]] *)
Definition py_slice {A : Type} (l : list A) (b e : Z) : list A :=
  let n := Z.of_nat (length l) in
  let b := slice_bound n b in
  let e := slice_bound n e in
  take (Z.to_nat (e - b)) (drop (Z.to_nat b) l).

(** The position [l[i]] reads or writes: negative positions count from
    the end, anything outside [[-len, len)] raises [IndexError]. *)
Definition py_position (len i : Z) : result nat :=
  if (0 <=? i) && (i <? len) then Ok (Z.to_nat i)
  else if (- len <=? i) && (i <? 0) then Ok (Z.to_nat (i + len))
  else Raise IndexError.

(** [l[i]] *)
Definition py_getitem {A : Type} (l : list A) (i : Z) : result A :=
  let* k := py_position (Z.of_nat (length l)) i in
  match l !! k with
  | Some v => Ok v
  | None => Raise IndexError
  end.

(** [l[i] = v] *)
Definition py_setitem {A : Type} (l : list A) (i : Z) (v : A) : result (list A) :=
  let* k := py_position (Z.of_nat (length l)) i in
  Ok (<[k := v]> l).

(** ** Reductions of the array library over real samples *)

(** A float64 result of a reduction: a real value, or NaN. *)
Inductive npfloat : Type :=
| Fin (r : R)
| NaN.

Definition np_sum (l : list R) : R := fold_right Rplus 0%R l.

(** [np.mean(l)]: NaN (with a warning) for an empty array. *)
Definition np_mean (l : list R) : npfloat :=
  match l with
  | [] => NaN
  | _ :: _ => Fin (np_sum l / INR (length l))
  end.

(** The sum of squared deviations from the arithmetic mean. *)
Definition sq_dev (l : list R) : R :=
  let m := (np_sum l / INR (length l))%R in
  np_sum (map (fun v => ((v - m) * (v - m))%R) l).

(** [l.std(ddof=1)]: the square root of the sum of squared deviations
    divided by [max(n - 1, 0)]; with [n <= 1] that quotient is [0/0],
    and the result NaN (with a warning, no exception). *)
Definition np_std_ddof1 (l : list R) : npfloat :=
  if (length l <=? 1)%nat then NaN
  else Fin (sqrt (sq_dev l / INR (length l - 1))).

(** ** get_centered_indices *)

Module Centered.

(** A masked integer matrix: every entry carries its mask bit. *)
Definition masked_matrix : Type := list (list (Z * bool)).

(** [np.arange(a, b, dtype='int')] *)
Definition np_arange_int (a b : Z) : list Z := seqZ a (b - a).

(** The local function [rng] of the source. *)
Definition rng (npts_before npts_after x : Z) : list Z :=
  np_arange_int (x - npts_before) (x + npts_after + 1).

(** [np.apply_along_axis(f, 1, idx[..., np.newaxis])]: [f] is applied to
    every event; NumPy raises [ValueError] ("Cannot apply_along_axis when
    any iteration dimensions are 0") when there is no event. *)
Definition apply_along_axis_1 (f : Z -> list Z) (idx : list Z)
  : result (list (list Z)) :=
  match idx with
  | [] => Raise ValueError
  | _ => Ok (map f idx)
  end.

(** [np.ma.masked_outside(a, v1, v2)]: masks the entries outside the
    closed interval [[v1, v2]] (the bounds are swapped when [v2 < v1]). *)
Definition masked_outside (a : list (list Z)) (v1 v2 : Z) : masked_matrix :=
  let lo := if v2 <? v1 then v2 else v1 in
  let hi := if v2 <? v1 then v1 else v2 in
  map (map (fun x => (x, (x <? lo) || (hi <? x)))) a.

Definition row_masked (row : list (Z * bool)) : bool := existsb snd row.

(** [np.ma.mask_rows(a)]: a row with a masked entry is masked entirely. *)
Definition mask_rows (a : masked_matrix) : masked_matrix :=
  map (fun row =>
         if row_masked row then map (fun p => (fst p, true)) row else row) a.

(** [a.nonzero()[0]]: the row position of every entry that is unmasked
    and not zero (masked entries are filled with 0 first), in row-major
    order, one position per such entry. *)
Definition ma_nonzero_rows (a : masked_matrix) : list Z :=
  concat
    (imap (fun i row =>
             map (fun _ => Z.of_nat i)
                 (List.filter (fun p => negb (snd p) && negb (fst p =? 0)) row))
          a).

(** [np.unique(l)]: the sorted distinct values. *)
Definition np_unique (l : list Z) : list Z :=
  merge_sort Z.le (remove_dups l).

(** [np.ma.compress_rows(a)]: the data of the rows without a masked entry. *)
Definition compress_rows (a : masked_matrix) : list (list Z) :=
  map (map fst) (List.filter (fun row => negb (row_masked row)) a).

(** [int(x)] after the two assertions [isinstance(x, (int, float))] and
    [float(x).is_integer()]. *)
Definition whole_number (x : pynum) : result Z :=
  match x with
  | PyInt z => Ok z
  | PyFloat f =>
      let* _ := py_assert (float_is_integer f) in
      match float_trunc f with
      | Some z => Ok z
      | None => Raise AssertionError
      end
  end.

(** [get_centered_indices(data, idx, npts_before, npts_after)], for a
    1-D [data] and the 1-D integer array [idx] that
    [np.asarray(idx, dtype='int')] yields. *)
Definition get_centered_indices {A : Type} (data : list A) (idx : list Z)
    (npts_before npts_after : pynum) : result (list (list Z) * list Z) :=
  let* npts_before := whole_number npts_before in
  let* npts_after := whole_number npts_after in
  let* idx_ep := apply_along_axis_1 (rng npts_before npts_after) idx in
  let idx_ep := mask_rows (masked_outside idx_ep 0 (Z.of_nat (length data))) in
  let idx_ep_nomask := np_unique (ma_nonzero_rows idx_ep) in
  let idx_ep := compress_rows idx_ep in
  Ok (idx_ep, idx_ep_nomask).

End Centered.

(** ** trimbothstd *)

Module Trim.

#[global] Instance Rle_decision : RelDecision Rle := Rle_dec.

#[global] Instance Rle_transitive : Transitive Rle.
Proof. intros a b c. apply Rle_trans. Qed.

#[global] Instance Rle_antisymm : AntiSymm eq Rle.
Proof. intros a b. apply Rle_antisym. Qed.

#[global] Instance Rle_total : Total Rle.
Proof. intros a b. destruct (Rle_or_lt a b); [left | right; apply Rlt_le]; assumption. Qed.

(** [int(f)] on a Python float: truncation; NaN raises [ValueError],
    an infinity [OverflowError]. *)
Definition py_int (f : float) : result Z :=
  match float_trunc f with
  | Some z => Ok z
  | None => if PrimFloat.is_nan f then Raise ValueError else Raise OverflowError
  end.

(** The positions [np.partition] is asked to place: negative ones count
    from the end; on an array that is not empty, one outside [[0, n)]
    raises [ValueError]. *)
Definition kth_in_bounds (n k : Z) : bool :=
  let k := if k <? 0 then k + n else k in
  (0 <=? k) && (k <? n).

(** [np.partition(x, kth)]. The requested positions are checked only
    when the array is not empty: an empty array is returned as it is,
    whatever [kth]. NumPy only promises that each requested position
    holds the value a sorted copy has there, smaller values before it
    and larger ones after it; the fully sorted copy is one such result,
    and it is the one taken here ([partition_contract] below is the
    promise itself). *)
Definition np_partition (x : list R) (kth : list Z) : result (list R) :=
  if (length x =? 0)%nat || forallb (kth_in_bounds (Z.of_nat (length x))) kth
  then Ok (merge_sort Rle x)
  else Raise ValueError.

(** What NumPy documents of a result [a] of [np.partition(x, kth)], for
    one requested position [k] (already counted from the start). *)
Definition placed (a : list R) (k : nat) : Prop :=
  forall v, a !! k = Some v ->
    Forall (fun u => (u <= v)%R) (take k a) /\
    Forall (fun u => (v <= u)%R) (drop (S k) a).

Definition partition_contract (x : list R) (kth : list nat) (a : list R) : Prop :=
  a ≡ₚ x /\ Forall (placed a) kth.

(** [int(cut * n)]: exact on a Python [int], the truncated float product
    on a Python [float]. *)
Definition lowercut_of (cut : pynum) (n : Z) : result Z :=
  match cut with
  | PyInt c => Ok (c * n)
  | PyFloat f => py_int (f * Z2float n)%float
  end.

(** [trimbothstd(x, cut)] *)
Definition trimbothstd (x : list R) (cut : pynum) : result npfloat :=
  let n := Z.of_nat (length x) in
  let* lowercut := lowercut_of cut n in
  let uppercut := n - lowercut in
  let* atmp := np_partition x [lowercut; uppercut - 1] in
  Ok (np_std_ddof1 (py_slice atmp lowercut uppercut)).

(** The same computation on an arbitrary array [atmp] returned by the
    partition step. *)
Definition trimbothstd_on (atmp : list R) (lowercut : Z) : npfloat :=
  np_std_ddof1 (py_slice atmp lowercut (Z.of_nat (length atmp) - lowercut)).

End Trim.

(** ** sliding_window *)

Module Sliding.

(** An array view: a block of items, and the byte offset, shape and byte
    strides that address it. *)
Record ndarray (A : Type) : Type := mk_ndarray {
  nd_base : list A;
  nd_itemsize : Z;
  nd_offset : Z;
  nd_shape : list Z;
  nd_strides : list Z
}.
Arguments mk_ndarray {A}.
Arguments nd_base {A}.
Arguments nd_itemsize {A}.
Arguments nd_offset {A}.
Arguments nd_shape {A}.
Arguments nd_strides {A}.

Definition nd_ndim {A : Type} (a : ndarray A) : Z := Z.of_nat (length (nd_shape a)).

(** The byte address of the item at a multi-index. *)
Definition nd_address {A : Type} (a : ndarray A) (ix : list Z) : Z :=
  nd_offset a + fold_right Z.add 0 (zip_with Z.mul ix (nd_strides a)).

(** The item stored at a byte address of the block; nothing outside it. *)
Definition mem_read {A : Type} (a : ndarray A) (addr : Z) : option A :=
  if (0 <=? addr) && (addr mod nd_itemsize a =? 0)
  then nd_base a !! Z.to_nat (addr / nd_itemsize a)
  else None.

Fixpoint index_in_shape (ix shape : list Z) : bool :=
  match ix, shape with
  | [], [] => true
  | i :: ix, n :: shape => (0 <=? i) && (i <? n) && index_in_shape ix shape
  | _, _ => false
  end.

(** [a[i0, i1, ...]] for non-negative positions inside the shape. *)
Definition nd_get {A : Type} (a : ndarray A) (ix : list Z) : option A :=
  if index_in_shape ix (nd_shape a) then mem_read a (nd_address a ix) else None.

(** The item [k] places along the only axis of a 1-D array, read without
    the bounds check of indexing (what a strided view does). *)
Definition item_at {A : Type} (a : ndarray A) (k : Z) : option A :=
  mem_read a (nd_address a [k]).

(** A C-contiguous 1-D array over a list of 8-byte items. *)
Definition array1d {A : Type} (l : list A) : ndarray A :=
  mk_ndarray l 8 0 [Z.of_nat (length l)] [8].

(** A C-contiguous 2-D array of [rows] rows and [cols] columns. *)
Definition array2d {A : Type} (l : list A) (rows cols : Z) : ndarray A :=
  mk_ndarray l 8 0 [rows; cols] [8 * cols; 8].

(** [as_strided(data, shape, strides)]: the same block seen through
    another shape and other strides; a negative dimension raises
    [ValueError]. *)
Definition as_strided {A : Type} (data : ndarray A) (shape strides : list Z)
  : result (ndarray A) :=
  if forallb (fun d => 0 <=? d) shape
  then Ok (mk_ndarray (nd_base data) (nd_itemsize data) (nd_offset data) shape strides)
  else Raise ValueError.

(** [a / b] on Python [int]s: the binary64 quotient (both operands are
    below [2^53], hence exact as floats); a zero divisor raises. *)
Definition int_truediv (a b : Z) : result float :=
  if b =? 0 then Raise ZeroDivisionError else Ok (Z2float a / Z2float b)%float.

(** [np.floor(f).astype(int)] *)
Definition floor_astype_int (f : float) : Z :=
  match float_floor f with
  | Some z => if (int64_min <=? z) && (z <=? int64_max) then z else int64_min
  | None => int64_min
  end.

(** [x * sf] for a Python number [x] and the [int] [sf]. *)
Definition mul_int (x : pynum) (sf : Z) : pynum :=
  match x with
  | PyInt z => PyInt (z * sf)
  | PyFloat f => PyFloat (f * Z2float sf)%float
  end.

(** [if isinstance(x, float): assert x.is_integer(); x = int(x)] *)
Definition to_samples (x : pynum) : result Z :=
  match x with
  | PyInt z => Ok z
  | PyFloat f =>
      let* _ := py_assert (float_is_integer f) in
      match float_trunc f with
      | Some z => Ok z
      | None => Raise AssertionError
      end
  end.

(** [np.arange(k) * c] *)
Definition arange_times (k : Z) (c : float) : list float :=
  map (fun i => (Z2float i * c)%float) (seqZ 0 k).

(** [sliding_window(data, sf, window, step=None, axis=-1)] *)
Definition sliding_window {A : Type} (data : ndarray A) (sf window : pynum)
    (step : option pynum) (axis : Z) : result (list float * ndarray A) :=
  let* _ := py_assert (axis <=? nd_ndim data) in
  let* sf := to_samples sf in
  let window := mul_int window sf in
  let step := match step with None => window | Some s => mul_int s sf end in
  let* window := to_samples window in
  let* step := to_samples step in
  let* _ := py_assert (1 <=? step) in
  let* extent := py_getitem (nd_shape data) axis in
  let* _ := py_assert (window <? extent) in
  let* q1 := int_truediv extent step in
  let* q2 := int_truediv window step in
  let* shape := py_setitem (nd_shape data) axis
                  (floor_astype_int (q1 - q2 + 1)%float) in
  let shape := shape ++ [window] in
  let* stride := py_getitem (nd_strides data) axis in
  let* strides := py_setitem (nd_strides data) axis (stride * step) in
  let strides := strides ++ [stride] in
  let* strided := as_strided data shape strides in
  let* n_t := py_getitem (nd_shape strided) (-2) in
  let* dt := int_truediv step sf in
  Ok (arange_times n_t dt, strided).

End Sliding.

(** ** moving_transform *)

Module Moving.

(** [a / b] on Python floats: a zero divisor raises. *)
Definition py_div (a b : float) : result float :=
  if (b =? 0)%float then Raise ZeroDivisionError else Ok (a / b)%float.

(** [np.arange(0, stop, step)] for float arguments: the length is the
    ceiling of the float quotient [(stop - 0) / step]; the first two
    items are [0] and [0 + step], the others [0 + i * delta] with
    [delta = (0 + step) - 0]. A length that is NaN raises [ValueError],
    and so does one that is infinite or outside the range of [intp]
    (the [OverflowError] of the length computation is turned into
    [ValueError], "Maximum allowed size exceeded"). *)
Definition arange_item (step : float) (i : Z) : float :=
  if i =? 0 then 0%float
  else if i =? 1 then (0 + step)%float
  else (0 + Z2float i * ((0 + step) - 0))%float.

Definition np_arange_float (stop step : float) : result (list float) :=
  let* q := py_div (stop - 0)%float step in
  match float_ceil q with
  | None => Raise ValueError
  | Some len =>
      if (int64_min <=? len) && (len <=? int64_max)
      then Ok (map (arange_item step) (seqZ 0 len))
      else Raise ValueError
  end.

(** [np.min], [np.max]: an empty array raises [ValueError]. *)
Definition np_min (l : list R) : result npfloat :=
  match l with
  | [] => Raise ValueError
  | v :: l => Ok (Fin (fold_left Rmin l v))
  end.

Definition np_max (l : list R) : result npfloat :=
  match l with
  | [] => Raise ValueError
  | v :: l => Ok (Fin (fold_left Rmax l v))
  end.

(** [np.ptp] *)
Definition np_ptp (l : list R) : result npfloat :=
  match l with
  | [] => Raise ValueError
  | v :: l => Ok (Fin (fold_left Rmax l v - fold_left Rmin l v))
  end.

(** [np.count_nonzero(x >= 0) / x.size]: a quotient of two Python ints. *)
Definition prop_above_zero (l : list R) : result npfloat :=
  match l with
  | [] => Raise ZeroDivisionError
  | _ :: _ =>
      Ok (Fin (INR (length (List.filter (fun v => bool_decide (0 <= v)%R) l))
               / INR (length l)))
  end.

(** The kernels of [yasa.numba] and the SciPy interpolant, which the
    module imports: any functions of these types. *)
Record kernels : Type := mk_kernels {
  slope_lstsq : list float -> list R -> npfloat;
  covar : list R -> list R -> npfloat;
  corr : list R -> list R -> npfloat;
  rms : list R -> npfloat;
  interp1d_cubic : list float -> list npfloat -> list float -> result (list npfloat)
}.

Definition methods : list string :=
  ["mean"; "min"; "max"; "ptp"; "rms"; "prop_above_zero"; "slope"; "covar";
   "corr"]%string.

Definition two_signals (method : string) : bool :=
  existsb (String.eqb method) ["covar"; "corr"]%string.

(** The local function [func] that the [if]/[elif] chain defines, applied
    to the window of [x] and, for ['covar'] and ['corr'], to the window
    of [y]. *)
Definition func1 (K : kernels) (sf : float) (method : string) (w : list R)
  : result npfloat :=
  if String.eqb method "mean" then Ok (np_mean w)
  else if String.eqb method "min" then np_min w
  else if String.eqb method "max" then np_max w
  else if String.eqb method "ptp" then np_ptp w
  else if String.eqb method "prop_above_zero" then prop_above_zero w
  else if String.eqb method "slope" then
    Ok (slope_lstsq K
          (map (fun i => (Z2float i / sf)%float) (seqZ 0 (Z.of_nat (length w)))) w)
  else Ok (rms K w).

Definition func2 (K : kernels) (method : string) (wx wy : list R) : npfloat :=
  if String.eqb method "covar" then covar K wx wy else corr K wx wy.

(** [beg[beg < 0] = 0] and [end[end > last] = last] *)
Definition clamp_beg (beg : list Z) : list Z :=
  map (fun b => if b <? 0 then 0 else b) beg.

Definition clamp_end (last : Z) (en : list Z) : list Z :=
  map (fun e => if last <? e then last else e) en.

(** [np.column_stack((beg, end)).mean(1) / sf] *)
Definition mid_times (sf : float) (beg en : list Z) : list float :=
  zip_with (fun b e => ((Z2float b + Z2float e) / 2 / sf)%float) beg en.

(** The loop over the epochs, which stops at the first exception. *)
Fixpoint epochs (f : Z -> Z -> result npfloat) (beg en : list Z)
  : result (list npfloat) :=
  match beg, en with
  | b :: beg, e :: en =>
      let* v := f b e in
      let* out := epochs f beg en in
      Ok (v :: out)
  | _, _ => Ok []
  end.

(** [moving_transform(x, y, sf, window, step, method, interp)]; the
    numbers [sf], [window] and [step] by their float value. With
    ['covar'] or ['corr'] and no second signal, the first epoch raises
    [TypeError] ([y[beg:end]] on [None]); without an epoch nothing is
    raised. *)
Definition moving_transform (K : kernels) (x : list R) (y : option (list R))
    (sf window step : float) (method : string) (interp : bool)
  : result (list float * list npfloat) :=
  let* _ := py_assert (existsb (String.eqb method) methods) in
  let* _ := match y with
            | Some y => py_assert (length x =? length y)%nat
            | None => Ok tt
            end in
  let* step := if (step =? 0)%float then py_div 1 sf else Ok step in
  let halfdur := (window / 2)%float in
  let n := Z.of_nat (length x) in
  let* total_dur := py_div (Z2float n) sf in
  let last := n - 1 in
  let* idx := np_arange_float total_dur step in
  let beg := map (fun t => astype_int ((t - halfdur) * sf)%float) idx in
  let en := map (fun t => astype_int ((t + halfdur) * sf)%float) idx in
  let beg := clamp_beg beg in
  let en := clamp_end last en in
  let t := mid_times sf beg en in
  let* out :=
    if two_signals method then
      match y with
      | Some y =>
          epochs (fun b e => Ok (func2 K method (py_slice x b e) (py_slice y b e)))
                 beg en
      | None => epochs (fun _ _ => Raise TypeError) beg en
      end
    else epochs (fun b e => func1 K sf method (py_slice x b e)) beg en in
  if interp then
    let* inv_sf := py_div 1 sf in
    if negb (step =? inv_sf)%float then
      let t' := map (fun i => (Z2float i / sf)%float) (seqZ 0 n) in
      let* out' := interp1d_cubic K t out t' in
      Ok (t', out')
    else Ok (t, out)
  else Ok (t, out).

End Moving.

(** ** _zerocrossings *)

Module ZeroCross.

#[global] Instance Rlt_decision : RelDecision Rlt := Rlt_dec.

(** [x > 0] on a 1-D array. *)
Definition np_greater_0 (x : list R) : list bool :=
  map (fun v => bool_decide (0 < v)%R) x.

(** [~a], [a & b] and [a | b] on boolean arrays of one length. *)
Definition np_invert (a : list bool) : list bool := map negb a.

Definition np_and (a b : list bool) : list bool := zip_with andb a b.

Definition np_or (a b : list bool) : list bool := zip_with orb a b.

(** [a.nonzero()[0]] on a 1-D boolean array: the positions of the [True]
    entries, in increasing order. *)
Fixpoint nonzero_from (k : Z) (a : list bool) : list Z :=
  match a with
  | [] => []
  | b :: a => (if b then [k] else []) ++ nonzero_from (k + 1) a
  end.

Definition np_nonzero (a : list bool) : list Z := nonzero_from 0 a.

(** [_zerocrossings(x)]; [a[:-1]] is the slice from 0 to -1 and [a[1:]]
    the slice from 1 to the length. *)
Definition _zerocrossings (x : list R) : list Z :=
  let pos := np_greater_0 x in
  let npos := np_invert pos in
  let n := Z.of_nat (length x) in
  np_nonzero
    (np_or (np_and (py_slice pos 0 (-1)) (py_slice npos 1 n))
           (np_and (py_slice npos 0 (-1)) (py_slice pos 1 n))).

End ZeroCross.

(** * Vocabulary of the statements *)

Module Spec.
Import Centered Trim Sliding Moving.

(** A row of sample positions lies in the closed interval [[0, n]]. *)
Definition row_inside (n : Z) (row : list Z) : bool :=
  forallb (fun v => (0 <=? v) && (v <=? n)) row.

(** The masked matrix that [get_centered_indices] builds. *)
Definition masked_epochs (n : Z) (idx : list Z) (before after : Z) : masked_matrix :=
  mask_rows (masked_outside (map (rng before after) idx) 0 n).

(** A row has an entry that is not zero. *)
Definition row_nonzero (row : list Z) : bool :=
  existsb (fun v => negb (v =? 0)) row.

(** The positions, counted from [k], of the items of [l] that satisfy
    [P], in increasing order. *)
Fixpoint positions_from {A : Type} (P : A -> bool) (k : Z) (l : list A) : list Z :=
  match l with
  | [] => []
  | a :: l => (if P a then [k] else []) ++ positions_from P (k + 1) l
  end.

Definition positions_where {A : Type} (P : A -> bool) (l : list A) : list Z :=
  positions_from P 0 l.

(** [a.nonzero()[0]] with the rows counted from [k]. *)
Definition nonzero_rows_from (k : Z) (a : masked_matrix) : list Z :=
  concat
    (imap (fun i row =>
             map (fun _ => k + Z.of_nat i)
                 (List.filter (fun p => negb (snd p) && negb (fst p =? 0)) row))
          a).

(** [floor(cut * n)] *)
Definition floor_cut (cut : pynum) (n : Z) : option Z :=
  match cut with
  | PyInt c => Some (c * n)
  | PyFloat f => float_floor (f * Z2float n)%float
  end.

(** The arithmetic mean and the sample standard deviation, with
    denominator [n - 1], of a list of reals. *)
Definition mean (l : list R) : R := (fold_right Rplus 0 l / INR (length l))%R.

Definition sample_std (l : list R) : R :=
  sqrt (fold_right Rplus 0 (map (fun v => (v - mean l) * (v - mean l)) l)
        / (INR (length l) - 1))%R.

(** [x] split by value: [low] holds [k] values that are at most every
    kept one, [high] holds [k] values that are at least every kept one. *)
Definition trimmed (x : list R) (k : nat) (low kept high : list R) : Prop :=
  x ≡ₚ low ++ kept ++ high /\
  length low = k /\ length high = k /\
  (forall u v, u ∈ low -> v ∈ kept -> (u <= v)%R) /\
  (forall v w, v ∈ kept -> w ∈ high -> (v <= w)%R).

(** [floor(extent / step - window / step + 1)], every operation in
    binary64 and operands converted exactly. *)
Definition count_formula (extent w s : Z) : Z :=
  floor_astype_int (Z2float extent / Z2float s - Z2float w / Z2float s + 1)%float.

(** The number of window starts [0, s, 2 s, ...] whose window of [w]
    samples fits into [extent] samples. *)
Definition fitting_windows (extent w s : Z) : Z := (extent - w) / s + 1.

(** The float count is the number of fitting windows or one less, and
    at least 1, for every extent and step up to [bound]. *)
Definition counts_checked (bound : Z) : bool :=
  forallb (fun extent =>
    forallb (fun w =>
      forallb (fun s =>
        let c := count_formula extent w s in
        (1 <=? c) && (c <=? fitting_windows extent w s)
        && (fitting_windows extent w s - 1 <=? c))
        (seqZ 1 bound))
      (seqZ 0 extent))
    (seqZ 1 bound).

(** The window length and the step in samples, as [sliding_window]
    converts them. *)
Definition window_samples (sf window : pynum) : result Z :=
  let* sf := to_samples sf in
  to_samples (mul_int window sf).

Definition step_samples (sf window : pynum) (step : option pynum) : result Z :=
  let* sf := to_samples sf in
  to_samples (match step with
              | None => mul_int window sf
              | Some s => mul_int s sf
              end).

(** Row [i] of a 2-D view with [w] columns. *)
Definition view_row {A : Type} (v : ndarray A) (w i : Z) : list (option A) :=
  map (fun j => nd_get v [i; j]) (seqZ 0 w).

(** The grid of window centres of [moving_transform]: [np.arange] from
    0 to [n / sf] by [step], or by [1 / sf] when [step] is 0. *)
Definition moving_grid (n : Z) (sf step : float) : result (list float) :=
  let* step := if (step =? 0)%float then py_div 1 sf else Ok step in
  let* total_dur := py_div (Z2float n) sf in
  np_arange_float total_dur step.

(** The window of a centre [tc]: both ends truncated toward zero, the
    start raised to 0 when negative, the end lowered to [n - 1] when
    larger. *)
Definition window_of (n : Z) (sf halfdur tc : float) : Z * Z :=
  (Z.max 0 (astype_int ((tc - halfdur) * sf)%float),
   Z.min (n - 1) (astype_int ((tc + halfdur) * sf)%float)).

(** The midpoint of that window, in seconds. *)
Definition truncated_time (n : Z) (sf halfdur tc : float) : float :=
  let (b, e) := window_of n sf halfdur tc in
  ((Z2float b + Z2float e) / 2 / sf)%float.

(** The number of samples of [x[b:e]] for a buffer of [n] samples. *)
Definition slice_length (n b e : Z) : Z :=
  Z.max 0 (slice_bound n e - slice_bound n b).

(** The mean of one window [(b, e)] of a constant buffer of value [c]:
    [c], or NaN when [x[b:e]] is empty. *)
Definition constant_mean (n : Z) (c : R) (w : Z * Z) : npfloat :=
  if 0 <? slice_length n (fst w) (snd w) then Fin c else NaN.

(** [round_to_int]: the nearest integer, ties to the even one. *)
Definition round_to_int (f : float) : Z :=
  match Prim2SF f with
  | S754_zero _ => 0
  | S754_finite s m e =>
      let a :=
        if 0 <=? e then Z.shiftl (Zpos m) e
        else
          let d := 2 ^ (- e) in
          let q := Zpos m / d in
          let r := Zpos m mod d in
          if 2 * r <? d then q
          else if d <? 2 * r then q + 1
          else if Z.even q then q else q + 1 in
      if s then - a else a
  | S754_infinity _ | S754_nan => int64_min
  end.

Definition clamp (lo hi v : Z) : Z := Z.max lo (Z.min hi v).

(** The time of a centre [tc] when both ends are rounded with
    [round_to_int] and clamped into [[0, n - 1]]. *)
Definition rounded_time (n : Z) (sf halfdur tc : float) : float :=
  let b := clamp 0 (n - 1) (round_to_int ((tc - halfdur) * sf)%float) in
  let e := clamp 0 (n - 1) (round_to_int ((tc + halfdur) * sf)%float) in
  ((Z2float b + Z2float e) / 2 / sf)%float.

(** Kernels for calls whose method needs none. *)
Definition idle_kernels : kernels :=
  mk_kernels (fun _ _ => NaN) (fun _ _ => NaN) (fun _ _ => NaN) (fun _ => NaN)
             (fun _ out _ => Ok out).

(** The positions [k, k + 1, ...] of the samples whose successor lies on
    the other side of the test [v > 0]. *)
Fixpoint sign_changes_from (k : Z) (x : list R) : list Z :=
  match x with
  | a :: (b :: _) as tl =>
      (if xorb (bool_decide (0 < a)%R) (bool_decide (0 < b)%R) then [k] else [])
      ++ sign_changes_from (k + 1) tl
  | _ => []
  end.

(** The item of the block that a multi-index addresses, read without
    the bounds check of indexing. *)
Definition item_at_index {A : Type} (a : ndarray A) (ix : list Z) : option A :=
  mem_read a (nd_address a ix).

(** A float64 result multiplied by a real factor; NaN stays NaN. *)
Definition npfloat_scale (c : R) (v : npfloat) : npfloat :=
  match v with
  | Fin r => Fin (c * r)
  | NaN => NaN
  end.

(** The integer next to a finite float in the direction of zero: its
    floor when that is not negative, its ceiling otherwise. *)
Definition toward_zero (f : float) : option Z :=
  match float_floor f, float_ceil f with
  | Some lo, Some hi => Some (if 0 <=? lo then lo else hi)
  | _, _ => None
  end.

(** The [int64] that a conversion yields: the integer itself when it is
    in range, and [-2^63] for an integer out of range, for NaN and for
    the infinities. *)
Definition to_int64 (o : option Z) : Z :=
  match o with
  | Some z => if (int64_min <=? z) && (z <=? int64_max) then z else int64_min
  | None => int64_min
  end.

End Spec.


(** * Properties *)



(** ** Python slices *)

Module SliceFacts.

Lemma slice_bound_clip (n v : Z) :
  0 <= n ->
  slice_bound n v = Z.max 0 (Z.min n (if v <? 0 then v + n else v)).
Proof.
  intros Hn. unfold slice_bound.
  destruct (v <? 0); [set (u := v + n)|set (u := v)]; clearbody u.
  all: destruct (Z.ltb_spec u 0); [lia|].
  all: destruct (Z.ltb_spec n u); lia.
Qed.

Lemma slice_bound_range (n v : Z) : 0 <= n -> 0 <= slice_bound n v <= n.
Proof. intros Hn. rewrite slice_bound_clip by exact Hn. lia. Qed.

(** The number of items of a slice. *)
Lemma length_py_slice {A : Type} (l : list A) (b e : Z) :
  length (py_slice l b e)
  = Z.to_nat (slice_bound (Z.of_nat (length l)) e - slice_bound (Z.of_nat (length l)) b).
Proof.
  unfold py_slice. rewrite length_take, length_drop.
  pose proof (slice_bound_range (Z.of_nat (length l)) b).
  pose proof (slice_bound_range (Z.of_nat (length l)) e). lia.
Qed.

(** [l[:-1]] and [l[1:]] *)
Lemma py_slice_init {A : Type} (l : list A) :
  py_slice l 0 (-1) = take (length l - 1) l.
Proof.
  unfold py_slice. rewrite !slice_bound_clip by lia. cbn [Z.ltb Z.compare].
  replace (Z.to_nat (Z.max 0 (Z.min (Z.of_nat (length l)) 0))) with 0%nat by lia.
  rewrite drop_0. f_equal. lia.
Qed.

Lemma py_slice_tail {A : Type} (l : list A) (n : Z) :
  n = Z.of_nat (length l) -> py_slice l 1 n = drop 1 l.
Proof.
  intros ->. unfold py_slice. rewrite !slice_bound_clip by lia. cbn [Z.ltb Z.compare].
  destruct l as [|a l]; [reflexivity|].
  replace (Z.to_nat (Z.max 0 (Z.min (Z.of_nat (length (a :: l))) 1))) with 1%nat
    by (cbn [length]; lia).
  apply take_ge. rewrite length_drop.
  destruct (Z.ltb_spec (Z.of_nat (length (a :: l))) 0); lia.
Qed.

(** A slice that ends at or before the last item does not see it. *)
Lemma py_slice_without_last {A : Type} (l : list A) (v v' : A) (b e : Z) :
  e <= Z.of_nat (length l) ->
  py_slice (l ++ [v]) b e = py_slice (l ++ [v']) b e.
Proof.
  intros He. unfold py_slice. rewrite !length_app. cbn [length].
  set (n := Z.of_nat (length l + 1)).
  pose proof (slice_bound_range n b ltac:(lia)) as Hb.
  assert (slice_bound n e <= Z.of_nat (length l)) as He'.
  { rewrite slice_bound_clip by lia. destruct (Z.ltb_spec e 0); lia. }
  destruct (decide (slice_bound n e <= slice_bound n b)) as [Hle|Hlt].
  - replace (Z.to_nat (slice_bound n e - slice_bound n b)) with 0%nat by lia.
    reflexivity.
  - rewrite !drop_app_le by lia. rewrite !take_app_le by (rewrite length_drop; lia).
    reflexivity.
Qed.

End SliceFacts.

(** ** binary64 helpers *)

Module FloatFacts.

Example trunc_negative : float_trunc (-2.5) = Some (-2).
Proof. reflexivity. Qed.

Example floor_negative : float_floor (-2.5) = Some (-3).
Proof. reflexivity. Qed.

Example ceil_fraction : float_ceil 0.25 = Some 1 /\ float_ceil (-2.5) = Some (-2).
Proof. split; reflexivity. Qed.

Example whole_and_fraction :
  float_is_integer 50 = true /\ float_is_integer 2.5 = false.
Proof. split; reflexivity. Qed.

Example astype_int_truncates :
  astype_int 3.75 = 3 /\ astype_int (-0.75) = 0 /\ astype_int PrimFloat.nan = int64_min.
Proof. repeat split; reflexivity. Qed.

Example Z2float_exact : Z2float 1000 = 1000%float /\ Z2float (-3) = (-3)%float.
Proof. split; reflexivity. Qed.

(** A float that is not NaN and does not compare equal to 0 is a finite
    number other than zero, or an infinity. *)
Lemma nonzero_number (f : float) :
  PrimFloat.is_nan f = false -> (f =? 0)%float = false ->
  exists s, (exists m e, Prim2SF f = S754_finite s m e) \/ Prim2SF f = S754_infinity s.
Proof.
  unfold PrimFloat.is_nan. rewrite !FloatAxioms.eqb_spec.
  change (Prim2SF 0) with (S754_zero false).
  destruct (Prim2SF f) as [s|s| |s m e]; try discriminate; eauto.
Qed.

(** A zero divided by such a float is a zero. *)
Lemma zero_div (a b : float) (s : bool) :
  Prim2SF a = S754_zero s ->
  PrimFloat.is_nan b = false -> (b =? 0)%float = false ->
  exists s', Prim2SF (a / b) = S754_zero s'.
Proof.
  intros Ha Hn Hz. destruct (nonzero_number b Hn Hz) as (sb & [(m & e & Hb)|Hb]).
  all: rewrite FloatAxioms.div_spec, Ha, Hb; eexists; reflexivity.
Qed.

Lemma zero_sub_0 (a : float) (s : bool) :
  Prim2SF a = S754_zero s -> exists s', Prim2SF (a - 0) = S754_zero s'.
Proof.
  intros Ha. rewrite FloatAxioms.sub_spec, Ha.
  change (Prim2SF 0) with (S754_zero false).
  destruct s; eexists; reflexivity.
Qed.

(** [astype(int)] converts toward zero: a negative fraction goes up. *)
Lemma astype_int_toward_zero (f : float) :
  astype_int f = Spec.to_int64 (Spec.toward_zero f).
Proof.
  unfold astype_int, Spec.to_int64, Spec.toward_zero, float_trunc, float_floor, float_ceil.
  destruct (Prim2SF f) as [s|s| |s m e]; try reflexivity.
  destruct s.
  - assert (Z.shiftl (Z.neg m) e < 0) as Hneg by (apply Z.shiftl_neg; lia).
    destruct (Z.leb_spec 0 (Z.shiftl (Z.neg m) e)); [lia|]. reflexivity.
  - assert (0 <= Z.shiftl (Z.pos m) e) as Hpos by (apply Z.shiftl_nonneg; lia).
    destruct (Z.leb_spec 0 (Z.shiftl (Z.pos m) e)); [|lia]. reflexivity.
Qed.

End FloatFacts.

(** ** get_centered_indices *)

Module CenteredFacts.
Import Centered Spec.

Lemma row_masked_outside (n : Z) (row : list Z) :
  0 <= n ->
  row_masked (map (fun x => (x, (x <? 0) || (n <? x))) row) = negb (row_inside n row).
Proof.
  intros Hn. unfold row_masked, row_inside.
  induction row as [|v row IH]; simpl; [reflexivity|].
  rewrite IH, negb_andb. f_equal.
  destruct (Z.ltb_spec v 0), (Z.ltb_spec n v), (Z.leb_spec 0 v), (Z.leb_spec v n);
    simpl; try reflexivity; lia.
Qed.

Lemma row_masked_mask_rows (row : list (Z * bool)) :
  row_masked (if row_masked row then map (fun p => (fst p, true)) row else row)
  = row_masked row.
Proof.
  destruct (row_masked row) eqn:E; [|exact E].
  unfold row_masked in *. destruct row as [|p row]; simpl in *; [discriminate|reflexivity].
Qed.

Lemma compress_mask_rows (a : masked_matrix) :
  compress_rows (mask_rows a) = compress_rows a.
Proof.
  unfold compress_rows, mask_rows.
  induction a as [|row a IH]; simpl; [reflexivity|].
  rewrite row_masked_mask_rows.
  destruct (row_masked row) eqn:E; simpl; [exact IH|].
  f_equal. exact IH.
Qed.

Lemma compress_masked_outside (rows : list (list Z)) (n : Z) :
  0 <= n ->
  compress_rows (masked_outside rows 0 n) = List.filter (row_inside n) rows.
Proof.
  intros Hn. unfold compress_rows, masked_outside.
  replace (n <? 0) with false by (symmetry; apply Z.ltb_ge; lia).
  induction rows as [|row rows IH]; simpl; [reflexivity|].
  rewrite (row_masked_outside n row Hn), negb_involutive.
  destruct (row_inside n row); simpl; [|exact IH].
  f_equal; [|exact IH].
  rewrite map_map. simpl. apply map_id.
Qed.

(** The function on a non-empty event list and whole spans, with the
    assertions and the error check discharged. *)
Lemma get_centered_indices_events {A : Type} (data : list A) (idx : list Z)
    (before after : Z) :
  idx <> [] ->
  get_centered_indices data idx (PyInt before) (PyInt after)
  = Ok (compress_rows (masked_epochs (Z.of_nat (length data)) idx before after),
        np_unique (ma_nonzero_rows
                     (masked_epochs (Z.of_nat (length data)) idx before after))).
Proof. destruct idx; [congruence|reflexivity]. Qed.

(** The epoch matrix that is returned: the rows of the events, in the
    order of the events, whose entries all lie in [[0, n]] where [n] is
    the length of [data] (the bound [n] itself included). *)
Lemma kept_rows_inclusive {A : Type} (data : list A) (idx : list Z)
    (before after : Z) (ep : list (list Z)) (nomask : list Z) :
  get_centered_indices data idx (PyInt before) (PyInt after) = Ok (ep, nomask) ->
  ep = List.filter (row_inside (Z.of_nat (length data)))
                   (map (rng before after) idx).
Proof.
  intros H.
  destruct (decide (idx = [])) as [->|Hne]; [discriminate H|].
  rewrite (get_centered_indices_events data idx before after Hne) in H.
  assert (ep = compress_rows (masked_epochs (Z.of_nat (length data)) idx before after))
    as -> by congruence.
  unfold masked_epochs. rewrite compress_mask_rows.
  apply compress_masked_outside. lia.
Qed.

(** *** The vector of kept positions *)

Lemma nonzero_rows_from_0 (a : masked_matrix) :
  ma_nonzero_rows a = nonzero_rows_from 0 a.
Proof. reflexivity. Qed.

Lemma nonzero_rows_from_cons (k : Z) (row : list (Z * bool)) (a : masked_matrix) :
  nonzero_rows_from k (row :: a)
  = map (fun _ => k)
        (List.filter (fun p => negb (snd p) && negb (fst p =? 0)) row)
    ++ nonzero_rows_from (k + 1) a.
Proof.
  unfold nonzero_rows_from. rewrite imap_cons. cbn [concat].
  rewrite Z.add_0_r. f_equal. f_equal.
  apply imap_ext. intros i r _. cbn [compose].
  apply map_ext. intros _. lia.
Qed.

(** The unmasked entries of a row of the masked matrix that are not
    zero: those of the row itself when it lies inside [[0, n]], none
    otherwise. *)
Lemma reported_entries (n : Z) (row : list Z) :
  0 <= n ->
  List.filter (fun p => negb (snd p) && negb (fst p =? 0))
    (let mrow := map (fun x => (x, (x <? 0) || (n <? x))) row in
     if row_masked mrow then map (fun p => (fst p, true)) mrow else mrow)
  <> [] <->
  row_inside n row && row_nonzero row = true.
Proof.
  intros Hn. cbv zeta. rewrite (row_masked_outside n row Hn).
  destruct (row_inside n row) eqn:Hin; cbn [negb andb].
  - unfold row_inside in Hin. unfold row_nonzero.
    induction row as [|v row IH]; [simpl; split; [congruence|discriminate]|].
    cbn [forallb] in Hin. apply andb_true_iff in Hin as (Hv & Hin).
    assert ((v <? 0) || (n <? v) = false) as Hm.
    { apply andb_true_iff in Hv as (H0 & H1). apply Z.leb_le in H0, H1.
      apply orb_false_iff. split; apply Z.ltb_ge; lia. }
    cbn [map List.filter existsb fst snd]. rewrite Hm. cbn [negb andb].
    destruct (v =? 0); cbn [negb orb].
    + apply IH, Hin.
    + split; [reflexivity|discriminate].
  - split; [|discriminate]. intros H. exfalso. apply H. clear.
    induction row as [|v row IH]; [reflexivity|]. exact IH.
Qed.

Lemma positions_from_ge {A : Type} (P : A -> bool) (k z : Z) (l : list A) :
  z ∈ positions_from P k l -> k <= z.
Proof.
  revert k. induction l as [|a l IH]; intros k Hz; [inversion Hz|].
  cbn [positions_from] in Hz. apply elem_of_app in Hz as [Hz|Hz].
  - destruct (P a); [apply list_elem_of_singleton in Hz; lia|inversion Hz].
  - apply IH in Hz. lia.
Qed.

Lemma positions_from_sorted {A : Type} (P : A -> bool) (k : Z) (l : list A) :
  StronglySorted Z.lt (positions_from P k l).
Proof.
  revert k. induction l as [|a l IH]; intros k; [constructor|].
  cbn [positions_from]. destruct (P a); [|apply IH].
  constructor; [apply IH|].
  apply Forall_forall. intros z Hz. apply positions_from_ge in Hz. lia.
Qed.

Lemma strictly_sorted_le (l : list Z) : StronglySorted Z.lt l -> Sorted Z.le l.
Proof.
  induction 1 as [|z l Hl IH Hz]; constructor; [exact IH|].
  destruct l as [|y l]; constructor.
  apply Forall_cons in Hz as (Hz & _). lia.
Qed.

Lemma strictly_sorted_nodup (l : list Z) : StronglySorted Z.lt l -> NoDup l.
Proof.
  induction 1 as [|z l Hl IH Hz]; constructor; [|exact IH].
  intros Hin. rewrite Forall_forall in Hz. specialize (Hz z Hin). lia.
Qed.

Lemma elem_of_nonzero_rows (n k z : Z) (rows : list (list Z)) :
  0 <= n ->
  z ∈ nonzero_rows_from k (mask_rows (masked_outside rows 0 n)) <->
  z ∈ positions_from (fun row => row_inside n row && row_nonzero row) k rows.
Proof.
  intros Hn. unfold masked_outside.
  replace (n <? 0) with false by (symmetry; apply Z.ltb_ge; lia).
  revert k. induction rows as [|row rows IH]; intros k; [reflexivity|].
  cbn [map mask_rows positions_from]. rewrite nonzero_rows_from_cons.
  rewrite !elem_of_app, <- IH.
  pose proof (reported_entries n row Hn) as Hrow. cbv zeta in Hrow.
  destruct (row_inside n row && row_nonzero row).
  - destruct (List.filter _ _) as [|p ps]; [exfalso; apply Hrow; reflexivity|].
    cbn [map]. rewrite elem_of_cons, list_elem_of_singleton.
    split; [|tauto]. intros [[Hz|Hz]|Hz]; [tauto| |tauto].
    apply list_elem_of_fmap in Hz as (? & -> & _). tauto.
  - destruct (List.filter _ _) as [|p ps]; [reflexivity|].
    exfalso. destruct Hrow as [Hrow _]. discriminate Hrow. discriminate.
Qed.

(** The vector of kept positions that is returned: the positions of the
    events whose row lies inside [[0, n]] and has an entry that is not
    zero, in increasing order. *)
Lemma reported_positions {A : Type} (data : list A) (idx : list Z)
    (before after : Z) (ep : list (list Z)) (nomask : list Z) :
  get_centered_indices data idx (PyInt before) (PyInt after) = Ok (ep, nomask) ->
  nomask = positions_where
             (fun row => row_inside (Z.of_nat (length data)) row && row_nonzero row)
             (map (rng before after) idx).
Proof.
  intros H.
  destruct (decide (idx = [])) as [->|Hne]; [discriminate H|].
  rewrite (get_centered_indices_events data idx before after Hne) in H.
  assert (nomask = np_unique (ma_nonzero_rows
            (masked_epochs (Z.of_nat (length data)) idx before after)))
    as -> by congruence.
  unfold np_unique, positions_where, masked_epochs.
  apply (Sorted_unique Z.le).
  - apply Sorted_merge_sort. apply _.
  - apply strictly_sorted_le, positions_from_sorted.
  - rewrite merge_sort_Permutation.
    apply NoDup_Permutation.
    + apply NoDup_remove_dups.
    + apply strictly_sorted_nodup, positions_from_sorted.
    + intros z. rewrite elem_of_remove_dups, nonzero_rows_from_0.
      apply elem_of_nonzero_rows. lia.
Qed.

(** What [get_centered_indices] returns for whole spans: the rows of
    the events, in the order of the events, whose entries all lie in
    [[0, n]] ([n], the length of [data], included), and the positions of
    the events whose row lies in [[0, n]] and has an entry that is not
    zero. *)
Lemma returned_rows_and_positions {A : Type} (data : list A) (idx : list Z)
    (before after : Z) (ep : list (list Z)) (nomask : list Z) :
  get_centered_indices data idx (PyInt before) (PyInt after) = Ok (ep, nomask) ->
  ep = List.filter (row_inside (Z.of_nat (length data)))
                   (map (rng before after) idx) /\
  nomask = positions_where
             (fun row => row_inside (Z.of_nat (length data)) row && row_nonzero row)
             (map (rng before after) idx).
Proof.
  intros H. split.
  - apply (kept_rows_inclusive data idx before after ep nomask H).
  - apply (reported_positions data idx before after ep nomask H).
Qed.

Lemma returned_rows_and_positions_witness :
  [[0]; [5]] = List.filter (row_inside 10) (map (rng 0 0) [0; 5]) /\
  [1] = positions_where (fun row => row_inside 10 row && row_nonzero row)
          (map (rng 0 0) [0; 5]).
Proof.
  apply (returned_rows_and_positions (repeat 0%R 10) [0; 5] 0 0 [[0]; [5]] [1]).
  vm_compute. reflexivity.
Defined.

(** The kept rows and the positions of the items that satisfy the same
    test correspond one to one. *)
Lemma filter_positions {A : Type} (P : A -> bool) (k : Z) (l : list A) :
  map (fun p => l !! Z.to_nat (p - k)) (positions_from P k l)
  = map Some (List.filter P l).
Proof.
  revert k. induction l as [|a l IH]; intros k; [reflexivity|].
  cbn [positions_from List.filter].
  assert (map (fun p => (a :: l) !! Z.to_nat (p - k)) (positions_from P (k + 1) l)
          = map Some (List.filter P l)) as Htail.
  { rewrite <- (IH (k + 1)). apply map_ext_in. intros p Hp.
    apply list_elem_of_In, positions_from_ge in Hp.
    replace (Z.to_nat (p - k)) with (S (Z.to_nat (p - (k + 1)))) by lia.
    reflexivity. }
  destruct (P a); cbn [app map]; [|exact Htail].
  rewrite Htail. f_equal. replace (k - k) with 0 by lia. reflexivity.
Qed.

Lemma positions_from_ext {A : Type} (P Q : A -> bool) (k : Z) (l : list A) :
  (forall a, a ∈ l -> P a = Q a) ->
  positions_from P k l = positions_from Q k l.
Proof.
  revert k. induction l as [|a l IH]; intros k H; [reflexivity|].
  cbn [positions_from]. rewrite (H a) by left.
  rewrite IH; [reflexivity|]. intros b Hb. apply H. right. exact Hb.
Qed.

Lemma rng_nonzero (before after x : Z) :
  0 <= before -> 0 <= after -> 0 < before + after \/ x <> 0 ->
  row_nonzero (rng before after x) = true.
Proof.
  intros Hb Ha Hx. unfold row_nonzero, rng, np_arange_int.
  apply existsb_exists.
  destruct (decide (x = 0)) as [->|Hx0].
  - destruct (decide (0 < after)).
    + exists 1. split; [|reflexivity]. apply list_elem_of_In, elem_of_seqZ. lia.
    + exists (-1). split; [|reflexivity]. apply list_elem_of_In, elem_of_seqZ. lia.
  - exists x. split; [apply list_elem_of_In, elem_of_seqZ; lia|].
    apply negb_true_iff, Z.eqb_neq, Hx0.
Qed.

(** With spans that are not both zero, or no event at sample 0, the
    matrix and the vector that
    [get_centered_indices] returns have the same number of entries, and
    row [k] of the matrix is the row of the event at position
    [idx_nomask[k]]; the rows kept are those inside [[0, n]], in the
    order of the events. *)
Lemma rows_and_positions_correspond {A : Type} (data : list A) (idx : list Z)
    (before after : Z) (ep : list (list Z)) (nomask : list Z) :
  0 <= before -> 0 <= after ->
  0 < before + after \/ ~ 0 ∈ idx ->
  get_centered_indices data idx (PyInt before) (PyInt after) = Ok (ep, nomask) ->
  length ep = length nomask /\
  forall (k : nat) (p : Z),
    nomask !! k = Some p ->
    exists x,
      idx !! Z.to_nat p = Some x /\
      ep !! k = Some (rng before after x) /\
      Forall (fun v => 0 <= v <= Z.of_nat (length data)) (rng before after x).
Proof.
  intros Hb Ha Hz H.
  pose proof (kept_rows_inclusive data idx before after ep nomask H) as Hep.
  pose proof (reported_positions data idx before after ep nomask H) as Hno.
  set (n := Z.of_nat (length data)) in *.
  set (rows := map (rng before after) idx) in *.
  assert (nomask = positions_from (row_inside n) 0 rows) as Hno'.
  { rewrite Hno. apply positions_from_ext. intros row Hrow.
    apply list_elem_of_fmap in Hrow as (x & -> & Hx).
    rewrite rng_nonzero; [apply andb_true_r|exact Hb|exact Ha|].
    destruct Hz as [Hz|Hz]; [left; exact Hz|right; intros ->; apply Hz, Hx]. }
  pose proof (filter_positions (row_inside n) 0 rows) as Hfp.
  rewrite <- Hno', <- Hep in Hfp.
  split.
  - apply (f_equal length) in Hfp. rewrite !length_map in Hfp. symmetry. exact Hfp.
  - intros k p Hk.
    apply (f_equal (fun l => l !! k)) in Hfp.
    change (map ?f ?l) with (f <$> l) in Hfp.
    rewrite !list_lookup_fmap, Hk in Hfp. cbn [fmap option_fmap option_map] in Hfp.
    rewrite Z.sub_0_r in Hfp.
    destruct (ep !! k) as [row|] eqn:Hrow; [|discriminate Hfp].
    cbn [option_map] in Hfp. injection Hfp as Hfp.
    unfold rows in Hfp. change (map ?f ?l) with (f <$> l) in Hfp.
    rewrite list_lookup_fmap in Hfp.
    destruct (idx !! Z.to_nat p) as [x|] eqn:Hx; [|discriminate Hfp].
    injection Hfp as <-. exists x. split; [reflexivity|]. split; [reflexivity|].
    assert (rng before after x ∈ ep) as Hin by (apply list_elem_of_lookup; eauto).
    rewrite Hep in Hin. apply list_elem_of_In, filter_In in Hin as (_ & Hin).
    unfold row_inside in Hin. rewrite forallb_forall in Hin.
    apply Forall_forall. intros v Hv. apply list_elem_of_In, Hin in Hv.
    apply andb_true_iff in Hv as (H0 & H1). apply Z.leb_le in H0, H1. lia.
Qed.

Lemma rows_and_positions_correspond_witness :
  length [[7; 8; 9; 10; 11; 12]; [17; 18; 19; 20; 21; 22];
          [27; 28; 29; 30; 31; 32]; [47; 48; 49; 50; 51; 52]]
  = length [1; 2; 3; 4].
Proof.
  apply (rows_and_positions_correspond (repeat 0%R 100) [1; 10; 20; 30; 50; 102] 3 2).
  - lia.
  - lia.
  - left. lia.
  - vm_compute. reflexivity.
Defined.

(** The example of the docstring: with 100 samples, events
    [1, 10, 20, 30, 50, 102] and spans 3 and 2, the events at positions
    1 to 4 are kept and the row of event 10 is [7 .. 12]. *)
Lemma docstring_example :
  get_centered_indices (repeat 0%R 100) [1; 10; 20; 30; 50; 102] (PyInt 3) (PyInt 2)
  = Ok ([[7; 8; 9; 10; 11; 12]; [17; 18; 19; 20; 21; 22];
         [27; 28; 29; 30; 31; 32]; [47; 48; 49; 50; 51; 52]],
        [1; 2; 3; 4]).
Proof. vm_compute. reflexivity. Qed.

(** C1 (where the source departs from it): with 100 samples, the row of
    the event at sample 98 with spans 3 and 2 ends at 100, which is not a
    position of [data]; the row is kept all the same, because
    [masked_outside] is called with the inclusive upper bound
    [data.shape[0]]. *)
Lemma row_reaching_n_is_kept :
  get_centered_indices (repeat 0%R 100) [98] (PyInt 3) (PyInt 2)
  = Ok ([[95; 96; 97; 98; 99; 100]], [0])
  /\ ~ Forall (fun v => 0 <= v <= 100 - 1) [95; 96; 97; 98; 99; 100].
Proof.
  split.
  - vm_compute. reflexivity.
  - intros H. rewrite Forall_forall in H.
    specialize (H 100). cut (0 <= 100 <= 100 - 1); [lia|].
    apply H. rewrite !elem_of_cons. tauto.
Qed.

(** C2 (where the source departs from it): with spans 0 and 0 the row of
    an event at sample 0 is [[0]]; it is valid and stays in the matrix,
    but [nonzero()] does not report it, so the matrix has two rows and
    the vector of kept positions one entry. *)
Lemma zero_row_is_not_reported :
  get_centered_indices (repeat 0%R 10) [0; 5] (PyInt 0) (PyInt 0)
  = Ok ([[0]; [5]], [1])
  /\ length [[0]; [5]] <> length [1].
Proof.
  split.
  - vm_compute. reflexivity.
  - simpl. lia.
Qed.

(** C9 (where the source departs from it): with no event,
    [np.apply_along_axis] has nothing to iterate over and raises
    [ValueError]; nothing is returned. *)
Lemma no_event_raises {A : Type} (data : list A) (before after : Z) :
  get_centered_indices data [] (PyInt before) (PyInt after) = Raise ValueError.
Proof. unfold get_centered_indices. simpl. reflexivity. Qed.

(** The sibling case: events that are all out of bounds do give an empty
    matrix and an empty vector. *)
Lemma all_events_dropped :
  get_centered_indices (repeat 0%R 100) [1; 102] (PyInt 3) (PyInt 2) = Ok ([], []).
Proof. vm_compute. reflexivity. Qed.

(** *** The shape of the matrix, and events that all have room *)

Lemma row_inside_rng (n before after x : Z) :
  0 <= before -> 0 <= after ->
  row_inside n (rng before after x) = true <-> before <= x /\ x + after <= n.
Proof.
  intros Hb Ha. unfold row_inside, rng, np_arange_int. rewrite forallb_forall. split.
  - intros H.
    assert ((0 <=? x - before) && (x - before <=? n) = true) as H1
      by (apply H, list_elem_of_In, elem_of_seqZ; lia).
    assert ((0 <=? x + after) && (x + after <=? n) = true) as H2
      by (apply H, list_elem_of_In, elem_of_seqZ; lia).
    apply andb_true_iff in H1 as (H1 & _), H2 as (_ & H2).
    apply Z.leb_le in H1, H2. lia.
  - intros Hx v Hv. apply list_elem_of_In, elem_of_seqZ in Hv.
    apply andb_true_iff. split; apply Z.leb_le; lia.
Qed.

Lemma positions_from_lt {A : Type} (P : A -> bool) (k z : Z) (l : list A) :
  z ∈ positions_from P k l -> z < k + Z.of_nat (length l).
Proof.
  revert k. induction l as [|a l IH]; intros k Hz; [inversion Hz|].
  cbn [positions_from] in Hz. apply elem_of_app in Hz as [Hz|Hz].
  - destruct (P a); [apply list_elem_of_singleton in Hz; cbn [length]; lia|inversion Hz].
  - apply IH in Hz. cbn [length]. lia.
Qed.

Lemma positions_from_all {A : Type} (P : A -> bool) (k : Z) (l : list A) :
  Forall (fun a => P a = true) l ->
  positions_from P k l = seqZ k (Z.of_nat (length l)).
Proof.
  intros H. revert k. induction H as [|a l Ha _ IH]; intros k; [reflexivity|].
  cbn [positions_from length]. rewrite Ha, IH.
  rewrite (seqZ_cons k) by lia. cbn [app]. do 2 f_equal. lia.
Qed.

Lemma filter_keeps_all {A : Type} (P : A -> bool) (l : list A) :
  Forall (fun a => P a = true) l -> List.filter P l = l.
Proof.
  induction 1 as [|a l Ha _ IH]; [reflexivity|].
  cbn [List.filter]. rewrite Ha, IH. reflexivity.
Qed.

(** The matrix is rectangular and centred: with non-negative spans,
    every returned row has [before + after + 1] consecutive entries, its
    entry [before] is an event of [idx], and that event lies at least
    [before] samples after the start and at most [after] samples before
    the position [n]; the kept positions are strictly increasing
    positions of [idx]. *)
Lemma rows_are_centred {A : Type} (data : list A) (idx : list Z)
    (before after : Z) (ep : list (list Z)) (nomask : list Z) :
  0 <= before -> 0 <= after ->
  get_centered_indices data idx (PyInt before) (PyInt after) = Ok (ep, nomask) ->
  Forall (fun row =>
            length row = Z.to_nat (before + after + 1) /\
            exists x,
              x ∈ idx /\
              row !! Z.to_nat before = Some x /\
              (forall j, 0 <= j < before + after + 1 ->
                         row !! Z.to_nat j = Some (x - before + j)) /\
              before <= x <= Z.of_nat (length data) - after) ep /\
  StronglySorted Z.lt nomask /\
  Forall (fun p => 0 <= p < Z.of_nat (length idx)) nomask.
Proof.
  intros Hb Ha H.
  pose proof (kept_rows_inclusive data idx before after ep nomask H) as ->.
  pose proof (reported_positions data idx before after _ nomask H) as ->.
  split; [|split].
  - apply Forall_forall. intros row Hrow.
    apply list_elem_of_In, filter_In in Hrow as (Hrow & Hin).
    apply list_elem_of_In, list_elem_of_fmap in Hrow as (x & -> & Hx).
    apply row_inside_rng in Hin; [|exact Hb|exact Ha].
    unfold rng, np_arange_int. split; [rewrite length_seqZ; f_equal; lia|].
    exists x. split; [exact Hx|]. split; [|split; [|lia]].
    + rewrite lookup_seqZ_lt by lia. f_equal. lia.
    + intros j Hj. rewrite lookup_seqZ_lt by lia. f_equal. lia.
  - apply positions_from_sorted.
  - unfold positions_where. apply Forall_forall. intros p Hp.
    split; [apply positions_from_ge in Hp; exact Hp|].
    apply positions_from_lt in Hp. rewrite length_map in Hp. lia.
Qed.

Lemma rows_are_centred_witness :
  Forall (fun row =>
            length row = Z.to_nat (3 + 2 + 1) /\
            exists x,
              x ∈ [1; 10; 20; 30; 50; 102] /\
              row !! Z.to_nat 3 = Some x /\
              (forall j, 0 <= j < 3 + 2 + 1 -> row !! Z.to_nat j = Some (x - 3 + j)) /\
              3 <= x <= Z.of_nat (length (repeat 0%R 100)) - 2)
         [[7; 8; 9; 10; 11; 12]; [17; 18; 19; 20; 21; 22];
          [27; 28; 29; 30; 31; 32]; [47; 48; 49; 50; 51; 52]] /\
  StronglySorted Z.lt [1; 2; 3; 4] /\
  Forall (fun p => 0 <= p < Z.of_nat (length [1; 10; 20; 30; 50; 102])) [1; 2; 3; 4].
Proof.
  apply (rows_are_centred (repeat 0%R 100) [1; 10; 20; 30; 50; 102] 3 2).
  - lia.
  - lia.
  - vm_compute. reflexivity.
Defined.

(** Nothing is dropped when every event has room: with non-negative
    spans that are not both zero, if every event lies at least [before]
    samples after the start and at most [after] samples before the
    position [n], the matrix holds the row of every event and the kept
    positions are [0, 1, ..., len(idx) - 1]. *)
Lemma events_with_room_are_all_kept {A : Type} (data : list A) (idx : list Z)
    (before after : Z) :
  0 <= before -> 0 <= after -> 0 < before + after ->
  idx <> [] ->
  Forall (fun x => before <= x <= Z.of_nat (length data) - after) idx ->
  get_centered_indices data idx (PyInt before) (PyInt after)
  = Ok (map (rng before after) idx, seqZ 0 (Z.of_nat (length idx))).
Proof.
  intros Hb Ha Hspan Hne Hroom.
  destruct (get_centered_indices data idx (PyInt before) (PyInt after))
    as [[ep nomask]|e] eqn:H.
  - pose proof (kept_rows_inclusive data idx before after ep nomask H) as ->.
    pose proof (reported_positions data idx before after _ nomask H) as ->.
    assert (Forall (fun row => row_inside (Z.of_nat (length data)) row = true)
                   (map (rng before after) idx)) as Hin.
    { apply Forall_fmap. eapply Forall_impl; [exact Hroom|].
      intros x Hx. cbn beta in *. apply row_inside_rng; [exact Hb|exact Ha|lia]. }
    rewrite filter_keeps_all by exact Hin.
    unfold positions_where. rewrite positions_from_all, length_map; [reflexivity|].
    apply Forall_fmap. eapply Forall_impl; [exact Hroom|].
    intros x Hx. cbn beta in *. apply andb_true_iff. split.
    + apply row_inside_rng; [exact Hb|exact Ha|lia].
    + apply rng_nonzero; [exact Hb|exact Ha|left; exact Hspan].
  - rewrite (get_centered_indices_events data idx before after Hne) in H. discriminate H.
Qed.

Lemma events_with_room_are_all_kept_witness :
  get_centered_indices (repeat 0%R 100) [3; 10; 98] (PyInt 3) (PyInt 2)
  = Ok (map (rng 3 2) [3; 10; 98], seqZ 0 (Z.of_nat (length [3; 10; 98]))).
Proof.
  apply (events_with_room_are_all_kept (repeat 0%R 100) [3; 10; 98] 3 2).
  - lia.
  - lia.
  - lia.
  - discriminate.
  - repeat constructor; simpl; lia.
Defined.

End CenteredFacts.

(** ** trimbothstd *)

Module TrimFacts.
Import Trim Spec.

Lemma float_floor_nonneg_trunc (f : float) (k : Z) :
  float_floor f = Some k -> 0 <= k -> float_trunc f = Some k.
Proof.
  unfold float_floor, float_trunc.
  destruct (Prim2SF f) as [s|s| |s m e]; try discriminate; [tauto|].
  destruct s; [|tauto].
  intros [= <-] Hk. apply Z.shiftl_nonneg in Hk. lia.
Qed.

(** For a non-negative count, the count the source computes with [int]
    is the floor of [cut * n]. *)
Lemma lowercut_is_floor (cut : pynum) (n k : Z) :
  floor_cut cut n = Some k -> 0 <= k -> lowercut_of cut n = Ok k.
Proof.
  destruct cut as [c|f]; simpl.
  - intros [= <-] _. reflexivity.
  - intros Hf Hk. unfold py_int.
    rewrite (float_floor_nonneg_trunc _ _ Hf Hk). reflexivity.
Qed.

Lemma length_merge_sort (x : list R) : length (merge_sort Rle x) = length x.
Proof. apply Permutation_length, merge_sort_Permutation. Qed.

Lemma slice_bound_inside (n v : Z) : 0 <= v <= n -> slice_bound n v = v.
Proof.
  intros Hv. unfold slice_bound.
  destruct (Z.ltb_spec v 0); [lia|].
  destruct (Z.ltb_spec v 0); [lia|].
  destruct (Z.ltb_spec n v); lia.
Qed.

Lemma py_slice_inside {A : Type} (l : list A) (b e : Z) :
  0 <= b <= Z.of_nat (length l) -> 0 <= e <= Z.of_nat (length l) ->
  py_slice l b e = take (Z.to_nat (e - b)) (drop (Z.to_nat b) l).
Proof.
  intros Hb He. unfold py_slice.
  rewrite !slice_bound_inside by assumption. reflexivity.
Qed.

Lemma py_slice_middle {A : Type} (l : list A) (k : Z) :
  0 <= k -> k <= Z.of_nat (length l) - k ->
  py_slice l k (Z.of_nat (length l) - k)
  = take (Z.to_nat (Z.of_nat (length l) - 2 * k)) (drop (Z.to_nat k) l).
Proof.
  intros Hk Hn. rewrite py_slice_inside by lia. f_equal. lia.
Qed.

Lemma py_slice_short {A : Type} (l : list A) (k : Z) :
  0 <= k < Z.of_nat (length l) -> Z.of_nat (length l) - 2 * k < 2 ->
  (length (py_slice l k (Z.of_nat (length l) - k)) <= 1)%nat.
Proof.
  intros Hk Hn. rewrite py_slice_inside by lia.
  rewrite length_take. lia.
Qed.

Lemma np_sum_perm (l1 l2 : list R) : l1 ≡ₚ l2 -> np_sum l1 = np_sum l2.
Proof.
  induction 1 as [|v l1 l2 _ IH|u v l|l1 l2 l3 _ IH1 _ IH2]; simpl.
  - reflexivity.
  - rewrite IH. reflexivity.
  - lra.
  - congruence.
Qed.

Lemma mean_perm (l1 l2 : list R) : l1 ≡ₚ l2 -> mean l1 = mean l2.
Proof.
  intros H. unfold mean.
  rewrite (Permutation_length H). f_equal. apply (np_sum_perm _ _ H).
Qed.

Lemma sample_std_perm (l1 l2 : list R) :
  l1 ≡ₚ l2 -> sample_std l1 = sample_std l2.
Proof.
  intros H. unfold sample_std.
  rewrite (mean_perm _ _ H), (Permutation_length H).
  do 2 f_equal. apply np_sum_perm. apply Permutation_map. exact H.
Qed.

(** NumPy's [std(ddof=1)] of two values or more is the sample standard
    deviation. *)
Lemma np_std_ddof1_sample (l : list R) :
  (2 <= length l)%nat -> np_std_ddof1 l = Fin (sample_std l).
Proof.
  intros Hl. unfold np_std_ddof1, sample_std, sq_dev, mean, np_sum.
  destruct (Nat.leb_spec (length l) 1); [lia|].
  rewrite minus_INR by lia. reflexivity.
Qed.

Lemma np_std_ddof1_short (l : list R) :
  (length l <= 1)%nat -> np_std_ddof1 l = NaN.
Proof.
  intros Hl. unfold np_std_ddof1.
  destruct (Nat.leb_spec (length l) 1); [reflexivity|lia].
Qed.

(** The sorted copy split at [k] and [n - k]. *)
Lemma sorted_split (s : list R) (k m : nat) :
  (k + m <= length s)%nat ->
  s = take k s ++ take m (drop k s) ++ drop (k + m) s.
Proof.
  intros _.
  rewrite <- (take_drop k s) at 1. f_equal.
  rewrite <- (take_drop m (drop k s)) at 1. f_equal.
  rewrite drop_drop. reflexivity.
Qed.

Lemma sorted_trimmed (x : list R) (k m : nat) :
  (k + m + k = length x)%nat ->
  trimmed x k (take k (merge_sort Rle x))
              (take m (drop k (merge_sort Rle x)))
              (drop (k + m) (merge_sort Rle x)).
Proof.
  intros Hn.
  pose proof (length_merge_sort x) as Hlen.
  pose proof (StronglySorted_merge_sort Rle x) as Hs.
  rewrite (sorted_split (merge_sort Rle x) k m) in Hs by lia.
  apply StronglySorted_app in Hs as (Hlow & _ & Hs).
  apply StronglySorted_app in Hs as (Hhigh & _ & _).
  repeat split.
  - rewrite <- sorted_split by lia. symmetry. apply merge_sort_Permutation.
  - rewrite length_take. lia.
  - rewrite length_drop. lia.
  - intros u v Hu Hv. apply Hlow; [exact Hu|]. apply elem_of_app. left. exact Hv.
  - exact Hhigh.
Qed.

(** Whatever split by value one takes, the kept values are those of the
    sorted copy between positions [k] and [k + m]: ties at the two cuts
    do not change the kept values. *)
Lemma trimmed_kept_unique (x : list R) (k : nat) (low kept high : list R) :
  kept <> [] ->
  trimmed x k low kept high ->
  kept ≡ₚ take (length kept) (drop k (merge_sort Rle x)).
Proof.
  intros Hne (Hperm & Hlow & Hhigh & Hlk & Hkh).
  assert (merge_sort Rle x
          = merge_sort Rle low ++ merge_sort Rle kept ++ merge_sort Rle high) as ->.
  { apply (StronglySorted_unique Rle).
    - apply StronglySorted_merge_sort; apply _.
    - apply StronglySorted_app_2; [|apply StronglySorted_merge_sort; apply _|].
      + intros u w Hu Hw. rewrite merge_sort_Permutation in Hu.
        apply elem_of_app in Hw as [Hw|Hw]; rewrite merge_sort_Permutation in Hw.
        * apply Hlk; assumption.
        * destruct kept as [|v kept]; [congruence|].
          apply Rle_trans with v; [apply Hlk|apply Hkh]; try assumption; left.
      + apply StronglySorted_app_2; try (apply StronglySorted_merge_sort; apply _).
        intros v w Hv Hw. rewrite merge_sort_Permutation in Hv, Hw.
        apply Hkh; assumption.
    - rewrite !merge_sort_Permutation. exact Hperm. }
  rewrite drop_app_length' by (rewrite length_merge_sort; lia).
  rewrite take_app_length' by (rewrite length_merge_sort; lia).
  symmetry. apply merge_sort_Permutation.
Qed.

(** A result of [np.partition] at the two cut positions is a split by
    value. *)
Lemma partition_trimmed (x a : list R) (k m : nat) :
  (1 <= m)%nat -> (k + m + k = length x)%nat ->
  partition_contract x [k; (k + m - 1)%nat] a ->
  trimmed x k (take k a) (take m (drop k a)) (drop (k + m) a).
Proof.
  intros Hm Hn (Hperm & Hplaced).
  pose proof (Permutation_length Hperm) as Hlen.
  apply Forall_cons in Hplaced as (Hpk & Hplaced).
  apply Forall_cons in Hplaced as (Hpu & _).
  destruct (lookup_lt_is_Some_2 a k) as [vk Hvk]; [lia|].
  destruct (lookup_lt_is_Some_2 a (k + m - 1)) as [vu Hvu]; [lia|].
  destruct (Hpk vk Hvk) as (Hk1 & Hk2).
  destruct (Hpu vu Hvu) as (Hu1 & Hu2).
  rewrite Forall_forall in Hk1, Hk2, Hu1, Hu2.
  assert (forall v, v ∈ take m (drop k a) -> (vk <= v <= vu)%R) as Hmid.
  { intros v Hv. apply elem_of_take in Hv as (i & Hi & Him).
    rewrite lookup_drop in Hi. split.
    - destruct i as [|i].
      + rewrite Nat.add_0_r in Hi. assert (v = vk) as -> by congruence. apply Rle_refl.
      + apply Hk2. apply list_elem_of_lookup. exists i.
        rewrite lookup_drop. rewrite <- Hi. f_equal. lia.
    - destruct (decide (i = m - 1)%nat) as [->|Hi'].
      + replace (k + (m - 1))%nat with (k + m - 1)%nat in Hi by lia.
        assert (v = vu) as -> by congruence. apply Rle_refl.
      + apply Hu1. apply elem_of_take. exists (k + i)%nat. split; [exact Hi|lia]. }
  repeat split.
  - rewrite <- sorted_split by lia. symmetry. exact Hperm.
  - rewrite length_take. lia.
  - rewrite length_drop. lia.
  - intros u v Hu Hv. apply Rle_trans with vk; [apply Hk1; exact Hu|apply Hmid; exact Hv].
  - intros v w Hv Hw. apply Rle_trans with vu; [apply Hmid; exact Hv|].
    apply Hu2. replace (S (k + m - 1)) with (k + m)%nat by lia. exact Hw.
Qed.

(** The call with the cut count [k] inside the buffer: both positions
    handed to [np.partition] are valid, and the result is the standard
    deviation of the sorted copy between [k] and [n - k]. *)
Lemma trimbothstd_inside (x : list R) (cut : pynum) (k : Z) :
  lowercut_of cut (Z.of_nat (length x)) = Ok k ->
  0 <= k < Z.of_nat (length x) ->
  trimbothstd x cut
  = Ok (np_std_ddof1 (py_slice (merge_sort Rle x) k
                               (Z.of_nat (length (merge_sort Rle x)) - k))).
Proof.
  intros Hcut Hk. unfold trimbothstd. rewrite Hcut. cbn [bind].
  unfold np_partition. cbn [forallb]. unfold kth_in_bounds.
  repeat match goal with
         | |- context [?a <? ?b] => destruct (Z.ltb_spec a b); try lia
         | |- context [?a <=? ?b] => destruct (Z.leb_spec a b); try lia
         end.
  cbn [andb]. rewrite orb_true_r. cbn [bind]. rewrite length_merge_sort. reflexivity.
Qed.

Lemma not_empty (x : list R) : x <> [] -> (length x =? 0)%nat = false.
Proof. destruct x; [congruence|reflexivity]. Qed.

(** The call on a buffer that is not empty, with the cut count [k] at
    or beyond its end: [np.partition] refuses the position. *)
Lemma trimbothstd_outside (x : list R) (cut : pynum) (k : Z) :
  x <> [] ->
  lowercut_of cut (Z.of_nat (length x)) = Ok k ->
  Z.of_nat (length x) <= k ->
  trimbothstd x cut = Raise ValueError.
Proof.
  intros Hne Hcut Hk. unfold trimbothstd. rewrite Hcut. cbn [bind].
  unfold np_partition. rewrite (not_empty x Hne). cbn [orb forallb].
  unfold kth_in_bounds at 1.
  destruct (Z.ltb_spec k 0); [lia|].
  destruct (Z.ltb_spec k (Z.of_nat (length x))); [lia|].
  rewrite andb_false_r. reflexivity.
Qed.

(** The call on an empty buffer: [np.partition] checks no position and
    the standard deviation of no value is NaN. *)
Lemma trimbothstd_empty (cut : pynum) (k : Z) :
  lowercut_of cut 0 = Ok k -> trimbothstd [] cut = Ok NaN.
Proof.
  intros Hcut. unfold trimbothstd. cbv zeta.
  change (Z.of_nat (length (@nil R))) with 0. rewrite Hcut. cbn [bind].
  change (np_partition [] [k; 0 - k - 1]) with (@Ok (list R) []). cbn [bind].
  unfold py_slice. rewrite drop_nil, take_nil. reflexivity.
Qed.

Lemma trimbothstd_nan (x : list R) (cut : pynum) (k : Z) :
  lowercut_of cut (Z.of_nat (length x)) = Ok k ->
  0 <= k < Z.of_nat (length x) ->
  Z.of_nat (length x) - 2 * k < 2 ->
  trimbothstd x cut = Ok NaN.
Proof.
  intros Hcut Hk Hfew. rewrite (trimbothstd_inside x cut k Hcut Hk).
  f_equal. apply np_std_ddof1_short, py_slice_short; rewrite length_merge_sort; lia.
Qed.

(** The sorted copy is one of the results [np.partition] may return. *)
Lemma sorted_meets_contract (x : list R) (kth : list nat) :
  partition_contract x kth (merge_sort Rle x).
Proof.
  split; [apply merge_sort_Permutation|].
  apply Forall_forall. intros k _ v Hv.
  pose proof (StronglySorted_merge_sort Rle x) as Hs.
  rewrite <- (take_drop_middle _ _ _ Hv) in Hs.
  apply StronglySorted_app in Hs as (Hlow & _ & Hs).
  apply StronglySorted_cons in Hs as (Hhigh & _).
  split; [|exact Hhigh].
  apply Forall_forall. intros u Hu. apply Hlow; [exact Hu|left].
Qed.

(** With nothing cut the result is the sample standard deviation of the
    whole buffer. *)
Lemma trimbothstd_whole (x : list R) (cut : pynum) :
  lowercut_of cut (Z.of_nat (length x)) = Ok 0 ->
  (2 <= length x)%nat ->
  trimbothstd x cut = Ok (Fin (sample_std x)).
Proof.
  intros Hcut Hn. rewrite (trimbothstd_inside x cut 0 Hcut) by lia.
  rewrite py_slice_middle by lia.
  change (Z.to_nat 0) with 0%nat. rewrite drop_0, take_ge by lia.
  rewrite np_std_ddof1_sample by (rewrite length_merge_sort; exact Hn).
  do 2 f_equal. apply sample_std_perm, merge_sort_Permutation.
Qed.

(** [cut = 0]: the ordinary sample standard deviation ([ddof=1]). *)
Lemma trimbothstd_cut_zero (x : list R) :
  (2 <= length x)%nat ->
  trimbothstd x (PyInt 0) = Ok (Fin (sample_std x)).
Proof. intros Hn. apply trimbothstd_whole; [reflexivity|exact Hn]. Qed.

Lemma trimbothstd_cut_zero_witness :
  trimbothstd [2; 4; 9]%R (PyInt 0) = Ok (Fin (sample_std [2; 4; 9]%R)).
Proof. apply (trimbothstd_cut_zero [2; 4; 9]%R). simpl. lia. Defined.

(** C7. With [k = floor(cut * n) >= 0] and at least two values left,
    [trimbothstd] returns the sample standard deviation (denominator
    [n_kept - 1]) of the [n - 2 k] values that remain once the [k] lowest
    and the [k] highest values are set aside. The split is by value:
    every split of [x] into [k] low, the kept and [k] high values gives
    the same result, whatever the order of equal values at the two
    cuts, and so does every array that [np.partition] may return. With
    [k = 0], as for [cut = 0], the result is the sample standard
    deviation of the whole buffer. *)
Theorem trimbothstd_trims_by_value (x : list R) (cut : pynum) (k : Z) :
  floor_cut cut (Z.of_nat (length x)) = Some k ->
  0 <= k ->
  2 <= Z.of_nat (length x) - 2 * k ->
  exists low kept high,
    trimmed x (Z.to_nat k) low kept high /\
    Z.of_nat (length kept) = Z.of_nat (length x) - 2 * k /\
    trimbothstd x cut = Ok (Fin (sample_std kept)) /\
    (forall low' kept' high',
        trimmed x (Z.to_nat k) low' kept' high' ->
        sample_std kept' = sample_std kept) /\
    (forall a,
        partition_contract x
          [Z.to_nat k; Z.to_nat (Z.of_nat (length x) - k - 1)] a ->
        trimbothstd_on a k = Fin (sample_std kept)) /\
    (k = 0 -> trimbothstd x cut = Ok (Fin (sample_std x))).
Proof.
  intros Hfloor Hk Hleft.
  set (n := length x) in *.
  set (kn := Z.to_nat k). set (m := Z.to_nat (Z.of_nat n - 2 * k)).
  assert (kn + m + kn = n)%nat as Hsum by lia.
  set (s := merge_sort Rle x).
  assert (length s = n) as Hlen by apply length_merge_sort.
  assert (length (take m (drop kn s)) = m) as Hkept
    by (rewrite length_take, length_drop; lia).
  assert (trimbothstd x cut = Ok (Fin (sample_std (take m (drop kn s))))) as Hcall.
  { rewrite (trimbothstd_inside x cut k) by (try apply lowercut_is_floor; fold n; auto; lia).
    fold s. rewrite py_slice_middle by lia. rewrite Hlen. fold kn m.
    f_equal. apply np_std_ddof1_sample. lia. }
  assert (forall low' kept' high',
             trimmed x kn low' kept' high' ->
             sample_std kept' = sample_std (take m (drop kn s))) as Hunique.
  { intros low' kept' high' Ht.
    assert (length kept' = m) as Hm.
    { destruct Ht as (Hperm & Hl & Hh & _).
      apply Permutation_length in Hperm. rewrite !length_app in Hperm. fold n in Hperm. lia. }
    apply sample_std_perm. rewrite <- Hm.
    apply (trimmed_kept_unique x kn low' kept' high'); [|exact Ht].
    destruct kept'; [simpl in Hm; lia|discriminate]. }
  exists (take kn s), (take m (drop kn s)), (drop (kn + m) s).
  split; [apply sorted_trimmed; exact Hsum|].
  split; [lia|]. split; [exact Hcall|]. split; [exact Hunique|]. split.
  - intros a Hpart.
    assert (length a = n) as Ha by (destruct Hpart as [Hp _]; apply (Permutation_length Hp)).
    unfold trimbothstd_on. rewrite py_slice_middle by lia. rewrite Ha. fold kn m.
    rewrite np_std_ddof1_sample by (rewrite length_take, length_drop; lia).
    f_equal.
    apply (Hunique (take kn a) (take m (drop kn a)) (drop (kn + m) a)).
    apply partition_trimmed; [lia|lia|].
    replace (kn + m - 1)%nat with (Z.to_nat (Z.of_nat n - k - 1)) by lia.
    exact Hpart.
  - intros ->. apply trimbothstd_whole; [|lia].
    apply lowercut_is_floor; [exact Hfloor|lia].
Qed.

(** Eight samples with a quarter cut at each end: the two lowest and the
    two highest values go, and the result is the sample standard
    deviation of the four values in between. *)
Lemma trimbothstd_trims_by_value_witness :
  trimbothstd [1; 1; 3; 4; 5; 2; 9; 6]%R (PyFloat 0.25)
  = Ok (Fin (sample_std [3; 4; 5; 2]%R)).
Proof.
  destruct (trimbothstd_trims_by_value [1; 1; 3; 4; 5; 2; 9; 6]%R (PyFloat 0.25) 2)
    as (low & kept & high & _ & _ & Hcall & Hunique & _).
  - vm_compute. reflexivity.
  - lia.
  - simpl. lia.
  - rewrite Hcall. do 2 f_equal. symmetry.
    apply (Hunique [1; 1]%R [3; 4; 5; 2]%R [9; 6]%R).
    split; [reflexivity|]. split; [reflexivity|]. split; [reflexivity|]. split.
    + intros u v Hu Hv. repeat (apply elem_of_cons in Hu as [->|Hu]);
        repeat (apply elem_of_cons in Hv as [->|Hv]);
        try (apply elem_of_nil in Hu; contradiction);
        try (apply elem_of_nil in Hv; contradiction); lra.
    + intros u v Hu Hv. repeat (apply elem_of_cons in Hu as [->|Hu]);
        repeat (apply elem_of_cons in Hv as [->|Hv]);
        try (apply elem_of_nil in Hu; contradiction);
        try (apply elem_of_nil in Hv; contradiction); lra.
Defined.

(** C8 (as the source behaves). With [k = floor(cut * n) >= 0] and fewer
    than two values left, no exception reports the shortage: as long as
    [k] is a position of the buffer the call returns NaN, the standard
    deviation NumPy gives for fewer than two values, and so it does on
    an empty buffer, where [np.partition] checks no position; only a
    [k] at or beyond the end of a buffer that is not empty
    ([cut >= 1]) makes [np.partition] raise [ValueError]. *)
Theorem trimbothstd_too_few_values (x : list R) (cut : pynum) (k : Z) :
  floor_cut cut (Z.of_nat (length x)) = Some k ->
  0 <= k ->
  Z.of_nat (length x) - 2 * k < 2 ->
  (k < Z.of_nat (length x) -> trimbothstd x cut = Ok NaN) /\
  (x = [] -> trimbothstd x cut = Ok NaN) /\
  (x <> [] -> Z.of_nat (length x) <= k -> trimbothstd x cut = Raise ValueError).
Proof.
  intros Hfloor Hk Hfew.
  pose proof (lowercut_is_floor cut _ k Hfloor Hk) as Hcut.
  split; [|split].
  - intros Hkn. apply (trimbothstd_nan x cut k); [exact Hcut|lia|exact Hfew].
  - intros ->. apply (trimbothstd_empty cut k). exact Hcut.
  - intros Hne Hkn. apply (trimbothstd_outside x cut k); assumption.
Qed.

(** Four samples and [cut = 0.75]: three values would go at each end, and
    the call returns NaN. *)
Lemma trimbothstd_too_few_values_witness :
  trimbothstd [1; 2; 3; 4]%R (PyFloat 0.75) = Ok NaN.
Proof.
  refine (proj1 (trimbothstd_too_few_values [1; 2; 3; 4]%R (PyFloat 0.75) 3 _ _ _) _).
  - vm_compute. reflexivity.
  - lia.
  - simpl. lia.
  - simpl. lia.
Defined.

(** C8 (as stated) fails: four samples and [cut = 0.5] leave no value
    ([floor(0.5 * 4) = 2] go at each end), and the call returns NaN; it
    raises nothing. *)
Lemma half_cut_returns_nan :
  floor_cut (PyFloat 0.5) 4 = Some 2 /\
  4 - 2 * 2 < 2 /\
  trimbothstd [1; 2; 3; 4]%R (PyFloat 0.5) = Ok NaN /\
  forall e, trimbothstd [1; 2; 3; 4]%R (PyFloat 0.5) <> Raise e.
Proof.
  assert (trimbothstd [1; 2; 3; 4]%R (PyFloat 0.5) = Ok NaN) as H.
  { apply (trimbothstd_nan [1; 2; 3; 4]%R (PyFloat 0.5) 2).
    - vm_compute. reflexivity.
    - simpl. lia.
    - simpl. lia. }
  split; [vm_compute; reflexivity|]. split; [lia|]. split; [exact H|].
  intros e. rewrite H. discriminate.
Qed.

(** *** Refused cuts, and changes of order, unit and baseline *)

(** The call on a buffer that is not empty, with a negative cut count:
    the upper position [n - k - 1] lies beyond the end of the buffer. *)
Lemma trimbothstd_negative (x : list R) (cut : pynum) (k : Z) :
  x <> [] ->
  lowercut_of cut (Z.of_nat (length x)) = Ok k ->
  k < 0 ->
  trimbothstd x cut = Raise ValueError.
Proof.
  intros Hne Hcut Hk. unfold trimbothstd. rewrite Hcut. cbn [bind].
  unfold np_partition. rewrite (not_empty x Hne). cbn [orb forallb].
  assert (kth_in_bounds (Z.of_nat (length x)) (Z.of_nat (length x) - k - 1) = false) as ->.
  { unfold kth_in_bounds.
    destruct (Z.ltb_spec (Z.of_nat (length x) - k - 1) 0); [lia|].
    destruct (Z.ltb_spec (Z.of_nat (length x) - k - 1) (Z.of_nat (length x))); [lia|].
    apply andb_false_r. }
  rewrite andb_false_r. reflexivity.
Qed.

(** On a buffer that is not empty, whether the call returns is decided
    by the cut count [k = int(cut * n)] alone: it returns a value
    (possibly NaN) when [k] is a position of the buffer, and raises
    [ValueError] otherwise, for a negative count as for one that reaches
    the length. *)
Lemma cut_count_decides (x : list R) (cut : pynum) (k : Z) :
  x <> [] ->
  lowercut_of cut (Z.of_nat (length x)) = Ok k ->
  (0 <= k < Z.of_nat (length x) -> exists v, trimbothstd x cut = Ok v) /\
  (~ 0 <= k < Z.of_nat (length x) -> trimbothstd x cut = Raise ValueError).
Proof.
  intros Hne Hcut. split.
  - intros Hk. rewrite (trimbothstd_inside x cut k Hcut Hk). eauto.
  - intros Hk. destruct (Z.lt_ge_cases k 0).
    + apply (trimbothstd_negative x cut k Hne Hcut). assumption.
    + apply (trimbothstd_outside x cut k Hne Hcut). lia.
Qed.

Lemma cut_count_decides_witness :
  trimbothstd [2; 4; 9]%R (PyInt (-1)) = Raise ValueError.
Proof.
  apply (proj2 (cut_count_decides [2; 4; 9]%R (PyInt (-1)) (-3)
                  ltac:(discriminate) eq_refl)).
  simpl. lia.
Defined.

Lemma merge_sort_perm (x y : list R) :
  x ≡ₚ y -> merge_sort Rle x = merge_sort Rle y.
Proof.
  intros H. apply (Sorted_unique Rle).
  - apply Sorted_merge_sort. apply _.
  - apply Sorted_merge_sort. apply _.
  - rewrite !merge_sort_Permutation. exact H.
Qed.

(** The result does not depend on the order of the samples. *)
Lemma order_of_samples_is_irrelevant (x y : list R) (cut : pynum) :
  x ≡ₚ y -> trimbothstd x cut = trimbothstd y cut.
Proof.
  intros H. unfold trimbothstd, np_partition.
  rewrite (Permutation_length H), (merge_sort_perm x y H). reflexivity.
Qed.

Lemma order_of_samples_is_irrelevant_witness :
  trimbothstd [9; 2; 4]%R (PyFloat 0.25) = trimbothstd [2; 4; 9]%R (PyFloat 0.25).
Proof.
  apply (order_of_samples_is_irrelevant [9; 2; 4]%R [2; 4; 9]%R (PyFloat 0.25)).
  rewrite (Permutation_swap 2%R 9%R [4%R]), (Permutation_swap 4%R 9%R []). reflexivity.
Defined.

Lemma sorted_map_increasing (f : R -> R) (l : list R) :
  (forall u v, (u <= v)%R -> (f u <= f v)%R) ->
  StronglySorted Rle l -> StronglySorted Rle (map f l).
Proof.
  intros Hf. induction 1 as [|a l Hl IH Ha]; cbn [map]; constructor; [exact IH|].
  apply Forall_fmap. eapply Forall_impl; [exact Ha|]. intros v Hv. apply Hf, Hv.
Qed.

Lemma merge_sort_map_increasing (f : R -> R) (x : list R) :
  (forall u v, (u <= v)%R -> (f u <= f v)%R) ->
  merge_sort Rle (map f x) = map f (merge_sort Rle x).
Proof.
  intros Hf. apply (Sorted_unique Rle).
  - apply Sorted_merge_sort. apply _.
  - apply StronglySorted_Sorted, sorted_map_increasing; [exact Hf|].
    apply StronglySorted_merge_sort; apply _.
  - rewrite merge_sort_Permutation. apply Permutation_map. symmetry.
    apply merge_sort_Permutation.
Qed.

Lemma py_slice_map {A B : Type} (f : A -> B) (l : list A) (b e : Z) :
  py_slice (map f l) b e = map f (py_slice l b e).
Proof.
  unfold py_slice. rewrite length_map.
  rewrite skipn_map, firstn_map. reflexivity.
Qed.

Lemma np_sum_affine (c d : R) (l : list R) :
  np_sum (map (fun v => c * v + d)%R l) = (c * np_sum l + INR (length l) * d)%R.
Proof.
  induction l as [|a l IH]; [simpl; lra|].
  cbn [map np_sum fold_right length]. fold (np_sum (map (fun v => c * v + d)%R l)).
  fold (np_sum l). rewrite IH, S_INR. lra.
Qed.

Lemma np_sum_scaled (k : R) (g h : R -> R) (l : list R) :
  (forall v, h v = k * g v)%R ->
  np_sum (map h l) = (k * np_sum (map g l))%R.
Proof.
  intros Hh. induction l as [|a l IH]; [simpl; lra|].
  cbn [map np_sum fold_right]. fold (np_sum (map h l)). fold (np_sum (map g l)).
  rewrite IH, Hh. lra.
Qed.

Lemma sq_dev_affine (c d : R) (l : list R) :
  l <> [] ->
  sq_dev (map (fun v => c * v + d)%R l) = (c * c * sq_dev l)%R.
Proof.
  intros Hne. unfold sq_dev. rewrite np_sum_affine, length_map, map_map.
  assert (INR (length l) <> 0)%R as Hn.
  { apply not_0_INR. destruct l; [congruence|discriminate]. }
  apply np_sum_scaled. intros v. field. exact Hn.
Qed.

Lemma np_std_ddof1_affine (c d : R) (l : list R) :
  (0 < c)%R ->
  np_std_ddof1 (map (fun v => c * v + d)%R l) = npfloat_scale c (np_std_ddof1 l).
Proof.
  intros Hc. unfold np_std_ddof1. rewrite length_map.
  destruct (Nat.leb_spec (length l) 1) as [|Hl]; [reflexivity|].
  cbn [npfloat_scale]. f_equal.
  rewrite sq_dev_affine by (destruct l; [simpl in Hl; lia|discriminate]).
  assert (0 < INR (length l - 1))%R as Hpos by (apply lt_0_INR; lia).
  replace (c * c * sq_dev l / INR (length l - 1))%R
    with ((c * c) * (sq_dev l / INR (length l - 1)))%R by (field; lra).
  rewrite sqrt_mult_alt by nra. rewrite sqrt_square by lra. reflexivity.
Qed.

(** A change of unit and of baseline: multiplying every sample by a
    positive factor [c] and adding an offset [d] multiplies the result
    by [c] (NaN stays NaN) and leaves the outcome of the call, value or
    exception, otherwise unchanged. *)
Lemma scale_and_offset (x : list R) (cut : pynum) (c d : R) :
  (0 < c)%R ->
  trimbothstd (map (fun v => c * v + d)%R x) cut
  = match trimbothstd x cut with
    | Ok v => Ok (npfloat_scale c v)
    | Raise e => Raise e
    end.
Proof.
  intros Hc. unfold trimbothstd, np_partition. rewrite length_map.
  destruct (lowercut_of cut (Z.of_nat (length x))) as [k|e]; [|reflexivity].
  cbn [bind].
  destruct (_ || _); [|reflexivity]. cbn [bind].
  rewrite merge_sort_map_increasing by (intros u v Huv; nra).
  rewrite py_slice_map, np_std_ddof1_affine by exact Hc. reflexivity.
Qed.

Lemma scale_and_offset_witness :
  trimbothstd (map (fun v => 2 * v + 1)%R [2; 4; 9]%R) (PyInt 0)
  = match trimbothstd [2; 4; 9]%R (PyInt 0) with
    | Ok v => Ok (npfloat_scale 2 v)
    | Raise e => Raise e
    end.
Proof. apply (scale_and_offset [2; 4; 9]%R (PyInt 0) 2 1). lra. Defined.

End TrimFacts.

(** ** sliding_window *)

Module SlidingFacts.
Import Sliding Spec.

Lemma py_assert_ok (c : bool) (u : unit) : py_assert c = Ok u -> c = true.
Proof. destruct c; [reflexivity|discriminate]. Qed.

Lemma py_getitem_ok {A : Type} (l : list A) (i : Z) (v : A) :
  py_getitem l i = Ok v ->
  exists k, py_position (Z.of_nat (length l)) i = Ok k /\ l !! k = Some v.
Proof.
  unfold py_getitem. intros H. bind_ok H as k E.
  destruct (l !! k) eqn:El; [|discriminate H].
  injection H as ->. eauto.
Qed.

Lemma py_position_lt (len i : Z) (k : nat) :
  py_position len i = Ok k -> Z.of_nat k < len.
Proof.
  unfold py_position.
  destruct (Z.leb_spec 0 i), (Z.ltb_spec i len); simpl;
    try (intros [= <-]; lia).
  all: destruct (Z.leb_spec (- len) i), (Z.ltb_spec i 0); simpl;
    try discriminate; intros [= <-]; lia.
Qed.

Lemma as_strided_ok {A : Type} (data v : ndarray A) (shape strides : list Z) :
  as_strided data shape strides = Ok v ->
  v = mk_ndarray (nd_base data) (nd_itemsize data) (nd_offset data) shape strides
  /\ Forall (fun d => 0 <= d) shape.
Proof.
  unfold as_strided. destruct (forallb _ shape) eqn:E; [|discriminate].
  intros [= <-]. split; [reflexivity|].
  rewrite forallb_forall in E. apply Forall_forall. intros d Hd.
  apply Z.leb_le, E, list_elem_of_In, Hd.
Qed.

(** What a successful call has checked and built. *)
Lemma sliding_window_ok {A : Type} (data : ndarray A) (sf window : pynum)
    (step : option pynum) (axis : Z) (t : list float) (v : ndarray A) :
  sliding_window data sf window step axis = Ok (t, v) ->
  exists sfz w s a extent a' stride k,
    to_samples sf = Ok sfz /\
    window_samples sf window = Ok w /\
    step_samples sf window step = Ok s /\
    1 <= s /\ w < extent /\ 0 <= w /\
    py_position (nd_ndim data) axis = Ok a /\
    nd_shape data !! a = Some extent /\
    py_position (Z.of_nat (length (nd_strides data))) axis = Ok a' /\
    nd_strides data !! a' = Some stride /\
    v = mk_ndarray (nd_base data) (nd_itemsize data) (nd_offset data)
          (<[a := count_formula extent w s]> (nd_shape data) ++ [w])
          (<[a' := stride * s]> (nd_strides data) ++ [stride]) /\
    0 <= count_formula extent w s /\
    py_getitem (nd_shape v) (-2) = Ok k /\ 0 <= k /\
    t = arange_times k (Z2float s / Z2float sfz)%float.
Proof.
  unfold sliding_window. intros H.
  bind_ok H as u1 E1. clear E1.
  bind_ok H as sfz Esf.
  bind_ok H as w Ew.
  bind_ok H as s Es.
  bind_ok H as u2 Hs. apply py_assert_ok, Z.leb_le in Hs.
  bind_ok H as extent Hext.
  apply py_getitem_ok in Hext as (a & Ha & Hext).
  bind_ok H as u3 Hw. apply py_assert_ok, Z.ltb_lt in Hw.
  unfold int_truediv in H.
  destruct (Z.eqb_spec s 0) as [?|_]; [lia|]. cbn [bind] in H.
  unfold py_setitem in H. rewrite Ha in H. cbn [bind] in H.
  bind_ok H as stride Hstride.
  apply py_getitem_ok in Hstride as (a' & Ha' & Hstride).
  rewrite Ha' in H. cbn [bind] in H.
  bind_ok H as strided Hv.
  apply as_strided_ok in Hv as (Hv & Hshape).
  bind_ok H as k Hk.
  destruct (Z.eqb_spec sfz 0) as [?|Hsf0]; cbn [bind] in H; [discriminate H|].
  injection H as <- <-.
  exists sfz, w, s, a, extent, a', stride, k.
  unfold window_samples, step_samples, nd_ndim; rewrite Esf; cbn [bind].
  apply Forall_app in Hshape as (Hshape & Hw0).
  apply Forall_cons in Hw0 as (Hw0 & _).
  assert (0 <= count_formula extent w s).
  { rewrite Forall_forall in Hshape. apply Hshape, list_elem_of_lookup.
    exists a. apply list_lookup_insert_eq. apply lookup_lt_Some in Hext. exact Hext. }
  assert (0 <= k).
  { apply py_getitem_ok in Hk as (i & _ & Hi). subst strided. cbn [nd_shape] in Hi.
    apply list_elem_of_lookup_2 in Hi. apply elem_of_app in Hi as [Hi|Hi].
    - rewrite Forall_forall in Hshape. apply Hshape, Hi.
    - apply list_elem_of_singleton in Hi. lia. }
  repeat split; try assumption; try reflexivity.
Qed.

Lemma py_position_cases (len i : Z) (k : nat) :
  py_position len i = Ok k ->
  (0 <= i < len /\ Z.of_nat k = i) \/ (- len <= i < 0 /\ Z.of_nat k = i + len).
Proof.
  unfold py_position.
  destruct (Z.leb_spec 0 i), (Z.ltb_spec i len); simpl;
    try (intros [= <-]; lia).
  all: destruct (Z.leb_spec (- len) i), (Z.ltb_spec i 0); simpl;
    try discriminate; intros [= <-]; lia.
Qed.

Lemma mem_read_same_block {A : Type} (a b : ndarray A) (addr : Z) :
  nd_base a = nd_base b -> nd_itemsize a = nd_itemsize b ->
  mem_read a addr = mem_read b addr.
Proof. unfold mem_read. intros -> ->. reflexivity. Qed.

(** C4. A successful call has whole sample counts with [1 <= step] and
    [window < extent], and the replaced axis of the view has
    [floor(extent/step - window/step + 1)] entries, the quotients, the
    difference and the sum being binary64 operations. With 1000
    samples, [sf = 100], a window of 1 s and a step of 0.5 s the count
    is 19. With 8 samples, a window of 5 and a step of 3 the float
    formula gives 1, one less than the 2 windows that fit. *)
Theorem sliding_window_count :
  (forall (A : Type) (data : ndarray A) (sf window : pynum)
          (step : option pynum) (axis : Z) (t : list float) (v : ndarray A),
      sliding_window data sf window step axis = Ok (t, v) ->
      exists (a : nat) (extent w s : Z),
        py_position (nd_ndim data) axis = Ok a /\
        nd_shape data !! a = Some extent /\
        window_samples sf window = Ok w /\
        step_samples sf window step = Ok s /\
        1 <= s /\ w < extent /\
        nd_shape v !! a
        = Some (floor_astype_int
                  (Z2float extent / Z2float s - Z2float w / Z2float s + 1)%float)) /\
  (forall (A : Type) (l : list A),
      length l = 1000%nat ->
      exists t v,
        sliding_window (array1d l) (PyInt 100) (PyInt 1) (Some (PyFloat 0.5)) (-1)
        = Ok (t, v) /\
        nd_shape v = [19; 100]) /\
  (count_formula 8 5 3 = 1 /\ fitting_windows 8 5 3 = 2 /\
   forall (A : Type) (l : list A),
      length l = 8%nat ->
      exists t v,
        sliding_window (array1d l) (PyInt 1) (PyInt 5) (Some (PyInt 3)) (-1)
        = Ok (t, v) /\
        nd_shape v = [1; 5]).
Proof.
  split; [|split; [|split; [|split]]].
  - intros A data sf window step axis t v H.
    apply sliding_window_ok in H
      as (sfz & w & s & a & extent & a' & stride & k & _ & Hw & Hs & Hs1 & Hwe & _
          & Ha & Hext & _ & _ & -> & _).
    exists a, extent, w, s. repeat split; try assumption.
    cbn [nd_shape]. apply lookup_lt_Some in Hext as Hlt.
    rewrite lookup_app_l by (rewrite length_insert; exact Hlt).
    apply list_lookup_insert_eq. exact Hlt.
  - intros A l Hl. unfold sliding_window, array1d, nd_ndim. cbn [nd_shape nd_strides].
    rewrite Hl. eexists _, _. split; [vm_compute; reflexivity|reflexivity].
  - vm_compute. reflexivity.
  - vm_compute. reflexivity.
  - intros A l Hl. unfold sliding_window, array1d, nd_ndim. cbn [nd_shape nd_strides].
    rewrite Hl. eexists _, _. split; [vm_compute; reflexivity|reflexivity].
Qed.

(** The call of the claim's example, on 1000 real samples. *)
Lemma sliding_window_count_witness :
  exists (a : nat) (extent w s : Z),
    py_position 1 (-1) = Ok a /\
    [1000] !! a = Some extent /\
    window_samples (PyInt 100) (PyInt 1) = Ok w /\
    step_samples (PyInt 100) (PyInt 1) (Some (PyFloat 0.5)) = Ok s /\
    1 <= s /\ w < extent.
Proof.
  destruct (proj1 (proj2 sliding_window_count) R (repeat 0%R 1000) eq_refl)
    as (t & v & Hcall & _).
  destruct (proj1 sliding_window_count R _ _ _ _ _ t v Hcall)
    as (a & extent & w & s & Ha & He & Hw & Hs & Hs1 & Hwe & _).
  exists a, extent, w, s. repeat split; assumption.
Defined.

(** The view of a 1-D array that a successful call returns. *)
Lemma sliding_window_1d {A : Type} (data : ndarray A) (extent stride : Z)
    (sf window : pynum) (step : option pynum) (axis : Z)
    (t : list float) (v : ndarray A) :
  nd_shape data = [extent] ->
  nd_strides data = [stride] ->
  sliding_window data sf window step axis = Ok (t, v) ->
  exists w s,
    window_samples sf window = Ok w /\
    step_samples sf window step = Ok s /\
    1 <= s /\ 0 <= w < extent /\
    v = mk_ndarray (nd_base data) (nd_itemsize data) (nd_offset data)
          [count_formula extent w s; w] [stride * s; stride].
Proof.
  intros Hshape Hstrides H.
  apply sliding_window_ok in H
    as (sfz & w & s & a & ext & a' & str & k & _ & Hw & Hs & Hs1 & Hwe & Hw0
        & Ha & Hext & Ha' & Hstr & -> & _).
  apply py_position_lt in Ha, Ha'. unfold nd_ndim in Ha.
  rewrite Hshape in *. rewrite Hstrides in *. simpl in Ha, Ha'.
  assert (a = 0%nat) as -> by lia. assert (a' = 0%nat) as -> by lia.
  simpl in Hext, Hstr. injection Hext as <-. injection Hstr as <-.
  exists w, s. repeat split; try assumption; lia.
Qed.

(** An entry of a strided view of a 1-D array, by its address. *)
Lemma view_entry {A : Type} (data : ndarray A) (stride n_windows w s i j : Z) :
  nd_strides data = [stride] ->
  0 <= i < n_windows -> 0 <= j < w ->
  nd_get (mk_ndarray (nd_base data) (nd_itemsize data) (nd_offset data)
            [n_windows; w] [stride * s; stride]) [i; j]
  = item_at data (i * s + j).
Proof.
  intros Hstrides Hi Hj. unfold nd_get, item_at. cbn [nd_shape index_in_shape].
  destruct (Z.leb_spec 0 i), (Z.ltb_spec i n_windows),
           (Z.leb_spec 0 j), (Z.ltb_spec j w); try lia.
  cbn [andb]. unfold nd_address. cbn [nd_offset nd_strides].
  rewrite Hstrides. cbn [zip_with fold_right].
  replace (i * (stride * s) + (j * stride + 0)) with ((i * s + j) * stride + 0) by ring.
  apply mem_read_same_block; reflexivity.
Qed.

Lemma item_at_inside {A : Type} (data : ndarray A) (extent k : Z) :
  nd_shape data = [extent] -> 0 <= k < extent ->
  item_at data k = nd_get data [k].
Proof.
  intros Hshape Hk. unfold nd_get, item_at. rewrite Hshape. cbn [index_in_shape].
  destruct (Z.leb_spec 0 k), (Z.ltb_spec k extent); try lia. reflexivity.
Qed.

Lemma counts_checked_sound (bound extent w s : Z) :
  counts_checked bound = true ->
  0 <= w < extent -> extent <= bound -> 1 <= s <= bound ->
  1 <= count_formula extent w s /\
  fitting_windows extent w s - 1 <= count_formula extent w s
  <= fitting_windows extent w s.
Proof.
  unfold counts_checked. intros Hall Hw He Hs.
  rewrite forallb_forall in Hall.
  assert (In extent (seqZ 1 bound)) as H1
    by (apply list_elem_of_In, elem_of_seqZ; lia).
  apply Hall in H1. rewrite forallb_forall in H1.
  assert (In w (seqZ 0 extent)) as H2
    by (apply list_elem_of_In, elem_of_seqZ; lia).
  apply H1 in H2. rewrite forallb_forall in H2.
  assert (In s (seqZ 1 bound)) as H3
    by (apply list_elem_of_In, elem_of_seqZ; lia).
  apply H2 in H3. cbv zeta in H3.
  rewrite !andb_true_iff, !Z.leb_le in H3. lia.
Qed.

(** Up to 32 samples and steps up to 32, the float count is at least 1,
    never more than the number of windows that fit, and at most one
    less. *)
Lemma count_formula_small (extent w s : Z) :
  0 <= w < extent -> extent <= 32 -> 1 <= s <= 32 ->
  1 <= count_formula extent w s /\
  fitting_windows extent w s - 1 <= count_formula extent w s
  <= fitting_windows extent w s.
Proof.
  apply counts_checked_sound. vm_compute. reflexivity.
Qed.

Lemma windows_fit (extent w s n i j : Z) :
  1 <= s -> 0 <= w < extent -> n <= fitting_windows extent w s ->
  0 <= i < n -> 0 <= j < w -> 0 <= i * s + j < extent.
Proof.
  unfold fitting_windows. intros Hs Hw Hn Hi Hj.
  assert (i <= (extent - w) / s) as Hi' by lia.
  assert (s * ((extent - w) / s) <= extent - w) by (apply Z.mul_div_le; lia).
  nia.
Qed.





(** Hence, on such a 1-D array every entry of the view is an entry of
    [data]: entry [(i, j)] is [data[i * step + j]]. *)
Lemma sliding_window_view_inside {A : Type} (data : ndarray A) (extent stride : Z)
    (sf window : pynum) (step : option pynum) (axis : Z)
    (t : list float) (v : ndarray A) (s : Z) :
  nd_shape data = [extent] ->
  nd_strides data = [stride] ->
  extent <= 32 ->
  step_samples sf window step = Ok s ->
  s <= 32 ->
  sliding_window data sf window step axis = Ok (t, v) ->
  exists n_windows w,
    nd_shape v = [n_windows; w] /\
    forall i j, 0 <= i < n_windows -> 0 <= j < w ->
      0 <= i * s + j < extent /\ nd_get v [i; j] = nd_get data [i * s + j].
Proof.
  intros Hshape Hstrides He Hs Hs100 H.
  destruct (sliding_window_1d data extent stride sf window step axis t v
              Hshape Hstrides H) as (w & s' & Hw & Hs' & Hs1 & Hwe & ->).
  assert (s' = s) as -> by congruence.
  exists (count_formula extent w s), w. split; [reflexivity|].
  intros i j Hi Hj.
  destruct (count_formula_small extent w s) as (_ & _ & Hfit); try lia.
  unfold fitting_windows in Hfit.
  assert (0 <= i * s + j < extent) as Hin.
  { assert (i <= (extent - w) / s) as Hi' by lia.
    assert (s * ((extent - w) / s) <= extent - w) by (apply Z.mul_div_le; lia).
    nia. }
  split; [exact Hin|].
  rewrite view_entry by assumption.
  apply (item_at_inside data extent); assumption.
Qed.

Lemma sliding_window_view_inside_witness :
  exists n_windows w,
    [3; 4] = [n_windows; w] /\
    forall i j, 0 <= i < n_windows -> 0 <= j < w ->
      0 <= i * 2 + j < 8 /\
      nd_get (mk_ndarray [10; 11; 12; 13; 14; 15; 16; 17] 8 0 [3; 4] [16; 8]) [i; j]
      = nd_get (array1d [10; 11; 12; 13; 14; 15; 16; 17]) [i * 2 + j].
Proof.
  apply (sliding_window_view_inside (array1d [10; 11; 12; 13; 14; 15; 16; 17]) 8 8
           (PyInt 1) (PyInt 4) (Some (PyInt 2)) (-1) (arange_times 3 2)
           (mk_ndarray [10; 11; 12; 13; 14; 15; 16; 17] 8 0 [3; 4] [16; 8]) 2).
  - reflexivity.
  - reflexivity.
  - lia.
  - reflexivity.
  - lia.
  - vm_compute. reflexivity.
Defined.

(** C10. The time vector is [arange(strided.shape[-2]) * (step / sf)]:
    it has as many entries as the second-to-last axis of the view. For a
    1-D array and for a 2-D array windowed along its last axis that is
    the number of windows; for a 2-D array windowed along axis 0 it is
    the extent of the other axis. *)
Theorem sliding_window_times {A : Type} (data : ndarray A) (sf window : pynum)
    (step : option pynum) (axis : Z) (t : list float) (v : ndarray A) :
  sliding_window data sf window step axis = Ok (t, v) ->
  exists (sfz s k n_windows : Z) (a : nat),
    to_samples sf = Ok sfz /\
    step_samples sf window step = Ok s /\
    py_getitem (nd_shape v) (-2) = Ok k /\
    t = map (fun i => (Z2float i * (Z2float s / Z2float sfz))%float) (seqZ 0 k) /\
    Z.of_nat (length t) = k /\
    py_position (nd_ndim data) axis = Ok a /\
    nd_shape v !! a = Some n_windows /\
    (nd_ndim data = 1 -> k = n_windows) /\
    (nd_ndim data = 2 -> axis = 1 \/ axis = -1 -> k = n_windows) /\
    (nd_ndim data = 2 -> axis = 0 \/ axis = -2 -> nd_shape data !! 1%nat = Some k).
Proof.
  intros H.
  apply sliding_window_ok in H
    as (sfz & w & s & a & extent & a' & stride & k & Hsf & Hw & Hs & Hs1 & Hwe & Hw0
        & Ha & Hext & _ & _ & -> & Hc & Hk & Hk0 & ->).
  exists sfz, s, k, (count_formula extent w s), a.
  apply lookup_lt_Some in Hext as Hlt.
  assert ((<[a:=count_formula extent w s]> (nd_shape data) ++ [w]) !! a
          = Some (count_formula extent w s)) as Hcount.
  { rewrite lookup_app_l by (rewrite length_insert; exact Hlt).
    apply list_lookup_insert_eq. exact Hlt. }
  cbn [nd_shape] in *.
  apply py_getitem_ok in Hk as Hk'. destruct Hk' as (p & Hp & Hlook).
  rewrite length_app, length_insert in Hp. simpl in Hp.
  apply py_position_cases in Hp as [[Hp _]|[_ Hp]]; [lia|].
  apply py_position_cases in Ha as Hax. unfold nd_ndim in *.
  assert (p < length (nd_shape data))%nat as Hplt by lia.
  rewrite lookup_app_l in Hlook by (rewrite length_insert; exact Hplt).
  repeat split; try assumption.
  - unfold arange_times. rewrite length_map, length_seqZ. lia.
  - intros Hnd. assert (p = a) as -> by lia.
    rewrite list_lookup_insert_eq in Hlook by exact Hlt. congruence.
  - intros Hnd Haxis. assert (p = a) as -> by lia.
    rewrite list_lookup_insert_eq in Hlook by exact Hlt. congruence.
  - intros Hnd Haxis. assert (p = 1%nat) as -> by lia.
    rewrite list_lookup_insert_ne in Hlook by lia. exact Hlook.
Qed.

(** Four channels of ten samples, windowed along axis 0: the time vector
    has ten entries. *)
Lemma sliding_window_times_witness :
  exists (t : list float) (k : Z),
    Z.of_nat (length t) = k /\ [4; 10] !! 1%nat = Some k.
Proof.
  destruct (sliding_window_times (array2d (repeat 0%R 40) 4 10)
              (PyInt 1) (PyInt 2) (Some (PyInt 1)) 0
              (arange_times 10 1)
              (mk_ndarray (repeat 0%R 40) 8 0 [3; 10; 2] [80; 8; 80]))
    as (sfz & s & k & n & a & _ & _ & _ & _ & Hlen & _ & _ & _ & _ & Hch).
  - vm_compute. reflexivity.
  - exists (arange_times 10 1), k. split; [exact Hlen|].
    apply Hch; [reflexivity|left; reflexivity].
Defined.

(** *** Refused arguments, and views of arrays of any dimension *)

Lemma sizes_converted (sf window : pynum) (step : option pynum) (w s : Z) :
  window_samples sf window = Ok w ->
  step_samples sf window step = Ok s ->
  exists sfz,
    to_samples sf = Ok sfz /\
    to_samples (mul_int window sfz) = Ok w /\
    to_samples (match step with
                | None => mul_int window sfz
                | Some s => mul_int s sfz
                end) = Ok s.
Proof.
  unfold window_samples, step_samples. intros Hw Hs.
  destruct (to_samples sf) as [sfz|]; [|discriminate Hw].
  exists sfz. auto.
Qed.

(** The two checks on the sizes: a step below one sample and a window
    that does not leave at least one sample of the axis free are refused
    with [AssertionError] (so a window as long as the axis is refused
    too). *)
Lemma step_and_window_checks {A : Type} (data : ndarray A) (sf window : pynum)
    (step : option pynum) (axis w s : Z) :
  window_samples sf window = Ok w ->
  step_samples sf window step = Ok s ->
  s < 1 \/ (exists extent, py_getitem (nd_shape data) axis = Ok extent /\ extent <= w) ->
  sliding_window data sf window step axis = Raise AssertionError.
Proof.
  intros Hw Hs Hbad. destruct (sizes_converted _ _ _ _ _ Hw Hs) as (sfz & Hsf & Hw' & Hs').
  unfold sliding_window.
  destruct (py_assert (axis <=? nd_ndim data)) as [[]|[]] eqn:Ha; cbn [bind];
    try reflexivity; try (unfold py_assert in Ha; destruct (_ <=? _); discriminate Ha).
  rewrite Hsf. cbn [bind]. rewrite Hw'. cbn [bind]. rewrite Hs'. cbn [bind].
  destruct (Z.leb_spec 1 s) as [Hs1|Hs1]; cbn [py_assert bind]; [|reflexivity].
  destruct Hbad as [Hbad|(extent & Hext & Hbad)]; [lia|].
  rewrite Hext. cbn [bind].
  destruct (Z.ltb_spec w extent); [lia|]. reflexivity.
Qed.

Lemma step_and_window_checks_witness :
  sliding_window (array1d [10; 11; 12; 13]) (PyInt 1) (PyInt 4) None (-1)
  = Raise AssertionError.
Proof.
  apply (step_and_window_checks (array1d [10; 11; 12; 13]) (PyInt 1) (PyInt 4) None (-1) 4 4).
  - reflexivity.
  - reflexivity.
  - right. exists 4. split; [reflexivity|lia].
Defined.

(** The check [axis <= data.ndim] lets [axis = data.ndim] through, and
    has no lower bound: with valid sizes such an axis is refused only
    when the shape is read, with [IndexError]. *)
Lemma axis_out_of_range {A : Type} (data : ndarray A) (sf window : pynum)
    (step : option pynum) (axis w s : Z) :
  window_samples sf window = Ok w ->
  step_samples sf window step = Ok s ->
  1 <= s ->
  axis = nd_ndim data \/ axis < - nd_ndim data ->
  sliding_window data sf window step axis = Raise IndexError.
Proof.
  intros Hw Hs Hs1 Haxis.
  destruct (sizes_converted _ _ _ _ _ Hw Hs) as (sfz & Hsf & Hw' & Hs').
  unfold sliding_window.
  assert (0 <= nd_ndim data) as Hnd by (unfold nd_ndim; lia).
  destruct (Z.leb_spec axis (nd_ndim data)); [|lia]. cbn [py_assert bind].
  rewrite Hsf. cbn [bind]. rewrite Hw'. cbn [bind]. rewrite Hs'. cbn [bind].
  destruct (Z.leb_spec 1 s); [|lia]. cbn [py_assert bind].
  unfold py_getitem, py_position. fold (nd_ndim data).
  destruct (Z.leb_spec 0 axis), (Z.ltb_spec axis (nd_ndim data)),
           (Z.leb_spec (- nd_ndim data) axis), (Z.ltb_spec axis 0);
    cbn [andb bind]; try lia; reflexivity.
Qed.

Lemma axis_out_of_range_witness :
  sliding_window (array1d [10; 11; 12; 13]) (PyInt 1) (PyInt 2) None 1
  = Raise IndexError.
Proof.
  apply (axis_out_of_range (array1d [10; 11; 12; 13]) (PyInt 1) (PyInt 2) None 1 2 2).
  - reflexivity.
  - reflexivity.
  - lia.
  - left. reflexivity.
Defined.

(** A negative window passes the two size checks (it is below the
    extent of the axis) and is refused only by [as_strided], with
    [ValueError]. *)
Lemma negative_window {A : Type} (data : ndarray A) (sf window : pynum)
    (step : option pynum) (axis w s extent : Z) :
  length (nd_strides data) = length (nd_shape data) ->
  window_samples sf window = Ok w ->
  step_samples sf window step = Ok s ->
  1 <= s ->
  py_getitem (nd_shape data) axis = Ok extent ->
  0 <= extent ->
  w < 0 ->
  sliding_window data sf window step axis = Raise ValueError.
Proof.
  intros Hlen Hw Hs Hs1 Hext Hext0 Hneg.
  destruct (sizes_converted _ _ _ _ _ Hw Hs) as (sfz & Hsf & Hw' & Hs').
  unfold sliding_window.
  apply py_getitem_ok in Hext as Hpos. destruct Hpos as (a & Ha & Hlook).
  apply py_position_cases in Ha as Hax.
  destruct (Z.leb_spec axis (nd_ndim data)); [|unfold nd_ndim in *; lia].
  cbn [py_assert bind].
  rewrite Hsf. cbn [bind]. rewrite Hw'. cbn [bind]. rewrite Hs'. cbn [bind].
  destruct (Z.leb_spec 1 s); [|lia]. cbn [py_assert bind].
  rewrite Hext. cbn [bind].
  destruct (Z.ltb_spec w extent); [|lia]. cbn [py_assert bind].
  unfold int_truediv. destruct (Z.eqb_spec s 0); [lia|]. cbn [bind].
  unfold py_setitem. rewrite Ha. cbn [bind].
  unfold py_getitem at 1. rewrite Hlen, Ha. cbn [bind].
  destruct (nd_strides data !! a) as [stride|] eqn:Hstride.
  2:{ apply lookup_ge_None in Hstride. apply lookup_lt_Some in Hlook. lia. }
  cbn [bind].
  unfold as_strided.
  assert (forallb (fun d => 0 <=? d)
            (<[a:=floor_astype_int (Z2float extent / Z2float s - Z2float w / Z2float s + 1)]>
               (nd_shape data) ++ [w]) = false) as ->; [|reflexivity].
  apply not_true_is_false. intros Hall. rewrite forallb_forall in Hall.
  specialize (Hall w). rewrite in_app_iff in Hall.
  assert ((0 <=? w) = true) as Hw0 by (apply Hall; right; left; reflexivity).
  apply Z.leb_le in Hw0. lia.
Qed.

Lemma negative_window_witness :
  sliding_window (array1d [10; 11; 12; 13]) (PyInt 1) (PyInt (-2)) (Some (PyInt 1)) (-1)
  = Raise ValueError.
Proof.
  apply (negative_window (array1d [10; 11; 12; 13]) (PyInt 1) (PyInt (-2))
           (Some (PyInt 1)) (-1) (-2) 1 4).
  - reflexivity.
  - reflexivity.
  - reflexivity.
  - lia.
  - reflexivity.
  - lia.
  - lia.
Defined.

Lemma sum_app (l r : list Z) :
  fold_right Z.add 0 (l ++ r) = fold_right Z.add 0 l + fold_right Z.add 0 r.
Proof. induction l as [|a l IH]; cbn [app fold_right]; lia. Qed.

(** Replacing one factor in a sum of products. *)
Lemma sum_zip_insert_l (l r : list Z) (a : nat) (x x' y : Z) :
  l !! a = Some x -> r !! a = Some y ->
  fold_right Z.add 0 (zip_with Z.mul (<[a := x']> l) r)
  = fold_right Z.add 0 (zip_with Z.mul l r) + (x' - x) * y.
Proof.
  revert r a. induction l as [|u l IH]; intros [|v r] a Hl Hr; try discriminate.
  destruct a as [|a].
  - injection Hl as ->. injection Hr as ->. cbn [zip_with fold_right]. simpl. lia.
  - cbn in Hl, Hr. cbn [zip_with fold_right]. simpl.
    rewrite (IH r a Hl Hr). lia.
Qed.

Lemma sum_zip_insert_r (l r : list Z) (a : nat) (x y y' : Z) :
  l !! a = Some x -> r !! a = Some y ->
  fold_right Z.add 0 (zip_with Z.mul l (<[a := y']> r))
  = fold_right Z.add 0 (zip_with Z.mul l r) + x * (y' - y).
Proof.
  revert r a. induction l as [|u l IH]; intros [|v r] a Hl Hr; try discriminate.
  destruct a as [|a].
  - injection Hl as ->. injection Hr as ->. cbn [zip_with fold_right]. simpl. lia.
  - cbn in Hl, Hr. cbn [zip_with fold_right]. simpl.
    rewrite (IH r a Hl Hr). lia.
Qed.

(** The view of an array of any number of dimensions. Its shape is the
    shape of [data] with the extent of the axis replaced by the window
    count, followed by the window length; it shares the block of
    [data]; and its entry at [(i_0, ..., i_a, ..., j)] is the item of
    the block that [data] addresses at [(i_0, ..., i_a * step + j, ...)]:
    the new last axis runs inside a window, the axis [a] over the
    windows. *)
Lemma sliding_window_nd {A : Type} (data : ndarray A) (sf window : pynum)
    (step : option pynum) (axis : Z) (t : list float) (v : ndarray A) :
  length (nd_strides data) = length (nd_shape data) ->
  sliding_window data sf window step axis = Ok (t, v) ->
  exists (w s extent : Z) (a : nat),
    window_samples sf window = Ok w /\
    step_samples sf window step = Ok s /\
    py_position (nd_ndim data) axis = Ok a /\
    nd_shape data !! a = Some extent /\
    nd_base v = nd_base data /\
    nd_shape v = <[a := count_formula extent w s]> (nd_shape data) ++ [w] /\
    forall (ix : list Z) (i j : Z),
      ix !! a = Some i ->
      index_in_shape (ix ++ [j]) (nd_shape v) = true ->
      nd_get v (ix ++ [j]) = item_at_index data (<[a := i * s + j]> ix).
Proof.
  intros Hlen H.
  apply sliding_window_ok in H
    as (sfz & w & s & a & extent & a' & stride & k & _ & Hw & Hs & Hs1 & Hwe & Hw0
        & Ha & Hext & Ha' & Hstr & -> & _).
  unfold nd_ndim in Ha. rewrite Hlen, Ha in Ha'. injection Ha' as <-.
  exists w, s, extent, a. cbn [nd_shape nd_base].
  repeat split; try assumption.
  intros ix i j Hi Hin.
  unfold nd_get, item_at_index. cbn [nd_shape]. rewrite Hin.
  assert (length ix = length (nd_shape data)) as Hix.
  { clear - Hin.
    assert (forall (l sh : list Z), index_in_shape l sh = true -> length l = length sh) as Hl.
    { induction l as [|u l IH]; intros [|d sh]; try discriminate; [reflexivity|].
      cbn [index_in_shape]. intros H. apply andb_true_iff in H as (_ & H).
      cbn [length]. f_equal. apply IH, H. }
    apply Hl in Hin. rewrite !length_app, length_insert in Hin. simpl in Hin. lia. }
  unfold nd_address. cbn [nd_offset nd_strides].
  rewrite zip_with_app by (rewrite length_insert; lia).
  rewrite sum_app. cbn [zip_with fold_right].
  rewrite (sum_zip_insert_r _ _ a i stride _ Hi Hstr).
  rewrite (sum_zip_insert_l _ _ a i _ stride Hi Hstr).
  replace (nd_offset data + (fold_right Z.add 0 (zip_with Z.mul ix (nd_strides data))
             + i * (stride * s - stride) + (j * stride + 0)))
    with (nd_offset data + (fold_right Z.add 0 (zip_with Z.mul ix (nd_strides data))
             + (i * s + j - i) * stride)) by ring.
  apply mem_read_same_block; reflexivity.
Qed.

(** Two channels of six samples, windows of two samples without
    overlap along the last axis: the view has the shape [(2, 3, 2)], and
    its entry [(1, 2, 1)] is [data[1, 5]]. *)
Lemma sliding_window_nd_witness :
  exists t v,
    sliding_window (array2d [0; 1; 2; 3; 4; 5; 6; 7; 8; 9; 10; 11] 2 6)
      (PyInt 1) (PyInt 2) (Some (PyInt 2)) (-1) = Ok (t, v) /\
    nd_shape v = [2; 3; 2] /\
    nd_get v [1; 2; 1] = Some 11.
Proof.
  eassert (sliding_window (array2d [0; 1; 2; 3; 4; 5; 6; 7; 8; 9; 10; 11] 2 6)
             (PyInt 1) (PyInt 2) (Some (PyInt 2)) (-1) = Ok (_, _)) as Hcall
    by (vm_compute; reflexivity).
  destruct (sliding_window_nd (array2d [0; 1; 2; 3; 4; 5; 6; 7; 8; 9; 10; 11] 2 6)
              _ _ _ _ _ _ eq_refl Hcall)
    as (w & s & extent & a & Hw & Hs & Ha & Hext & _ & Hshape & Hget).
  injection Hw as <-. injection Hs as <-. injection Ha as <-.
  eexists _, _. split; [exact Hcall|]. split; [reflexivity|].
  transitivity (item_at_index (array2d [0; 1; 2; 3; 4; 5; 6; 7; 8; 9; 10; 11] 2 6)
                  (<[1%nat := 2 * 2 + 1]> [1; 2])).
  - apply (Hget [1; 2] 2 1); reflexivity.
  - reflexivity.
Defined.

Lemma concat_windows {B : Type} (g : Z -> B) (w : Z) (n : nat) :
  0 <= w ->
  concat (map (fun i => map g (seqZ (i * w) w)) (seqZ 0 (Z.of_nat n)))
  = map g (seqZ 0 (Z.of_nat n * w)).
Proof.
  intros Hw. induction n as [|n IH]; [reflexivity|].
  rewrite seqZ_S.
  rewrite map_app, concat_app, IH. cbn [map concat]. rewrite app_nil_r, Z.add_0_l.
  replace (Z.of_nat (S n) * w) with (Z.of_nat n * w + w) by lia.
  rewrite seqZ_app by nia. rewrite map_app, Z.add_0_l. reflexivity.
Qed.

(** Without a step the windows tile the buffer: the step is the window
    length, and on a 1-D array of at most 32 samples the windows fit
    into the array and the rows of the view, one after the other, are
    the first [n_windows * window] items of [data], each once. *)
Lemma default_step_tiles {A : Type} (data : ndarray A) (extent stride : Z)
    (sf window : pynum) (axis : Z) (t : list float) (v : ndarray A) :
  nd_shape data = [extent] ->
  nd_strides data = [stride] ->
  extent <= 32 ->
  sliding_window data sf window None axis = Ok (t, v) ->
  exists n_windows w,
    nd_shape v = [n_windows; w] /\
    step_samples sf window None = Ok w /\
    0 <= n_windows * w <= extent /\
    concat (map (view_row v w) (seqZ 0 n_windows))
    = map (fun k => nd_get data [k]) (seqZ 0 (n_windows * w)).
Proof.
  intros Hshape Hstrides He H.
  destruct (sliding_window_1d data extent stride sf window None axis t v Hshape Hstrides H)
    as (w & s & Hw & Hs & Hs1 & Hw0 & ->).
  assert (s = w) as -> by (unfold window_samples, step_samples in *; congruence).
  exists (count_formula extent w w), w. split; [reflexivity|]. split; [exact Hs|].
  destruct (count_formula_small extent w w) as (Hn & _ & Hfit); try lia.
  assert (count_formula extent w w * w <= extent) as Hroom.
  { pose proof Hfit as Hfit'. unfold fitting_windows in Hfit'.
    assert (w * ((extent - w) / w) <= extent - w) by (apply Z.mul_div_le; lia).
    nia. }
  split; [nia|].
  rewrite <- (Z2Nat.id (count_formula extent w w)) at 2 3 by lia.
  rewrite <- (concat_windows (fun k => nd_get data [k]) w) by lia.
  rewrite Z2Nat.id by lia.
  f_equal. apply map_ext_in. intros i Hi. apply list_elem_of_In, elem_of_seqZ in Hi.
  unfold view_row.
  replace (seqZ (i * w) w) with (map (Z.add (i * w)) (seqZ 0 w))
    by (rewrite <- (Z.add_0_r (i * w)) at 2; apply (fmap_add_seqZ (i * w) 0 w)).
  rewrite map_map. apply map_ext_in. intros j Hj.
  apply list_elem_of_In, elem_of_seqZ in Hj.
  rewrite view_entry by (assumption || lia).
  apply (item_at_inside data extent); [exact Hshape|].
  apply (windows_fit extent w w (count_formula extent w w)); lia.
Qed.

Lemma default_step_tiles_witness :
  exists t v n_windows w,
    sliding_window (array1d [10; 11; 12; 13; 14; 15; 16]) (PyInt 1) (PyInt 2) None (-1)
    = Ok (t, v) /\
    nd_shape v = [n_windows; w] /\
    n_windows * w <= 7 /\
    concat (map (view_row v w) (seqZ 0 n_windows))
    = map Some [10; 11; 12; 13; 14; 15].
Proof.
  eassert (sliding_window (array1d [10; 11; 12; 13; 14; 15; 16])
             (PyInt 1) (PyInt 2) None (-1) = Ok (_, _)) as Hcall
    by (vm_compute; reflexivity).
  destruct (default_step_tiles (array1d [10; 11; 12; 13; 14; 15; 16]) 7 8
              _ _ _ _ _ eq_refl eq_refl ltac:(lia) Hcall)
    as (n & w & Hshape & Hs & Hroom & Htiles).
  injection Hshape as <- <-.
  eexists _, _, _, _. split; [exact Hcall|]. split; [reflexivity|].
  split; [exact (proj2 Hroom)|].
  rewrite Htiles. reflexivity.
Defined.

End SlidingFacts.

(** ** moving_transform *)

Module MovingFacts.
Import Moving Spec SliceFacts FloatFacts.

Lemma epochs_total (f : Z -> Z -> result npfloat) (g : Z -> Z -> npfloat)
    (beg en : list Z) :
  (forall b e, f b e = Ok (g b e)) ->
  epochs f beg en = Ok (zip_with g beg en).
Proof.
  intros Hf. revert en.
  induction beg as [|b beg IH]; intros [|e en]; try reflexivity.
  cbn [epochs zip_with]. rewrite Hf, IH. reflexivity.
Qed.

Lemma epochs_length (f : Z -> Z -> result npfloat) (beg en : list Z)
    (out : list npfloat) :
  length beg = length en ->
  epochs f beg en = Ok out -> length out = length beg.
Proof.
  revert en out. induction beg as [|b beg IH]; intros [|e en] out Hlen; try discriminate.
  - intros [= <-]. reflexivity.
  - cbn [epochs]. intros H. bind_ok H as v Hv. bind_ok H as o Ho.
    injection H as <-. simpl. f_equal. apply (IH en); [|exact Ho].
    simpl in Hlen. lia.
Qed.

Lemma mid_times_grid (n : Z) (sf halfdur : float) (grid : list float) :
  mid_times sf
    (clamp_beg (map (fun t => astype_int ((t - halfdur) * sf)%float) grid))
    (clamp_end (n - 1) (map (fun t => astype_int ((t + halfdur) * sf)%float) grid))
  = map (truncated_time n sf halfdur) grid.
Proof.
  unfold mid_times, clamp_beg, clamp_end.
  induction grid as [|tc grid IH]; [reflexivity|].
  cbn [map zip_with]. rewrite IH. f_equal.
  unfold truncated_time, window_of.
  destruct (Z.ltb_spec (astype_int ((tc - halfdur) * sf)%float) 0),
           (Z.ltb_spec (n - 1) (astype_int ((tc + halfdur) * sf)%float)).
  all: repeat first [rewrite Z.max_l by lia | rewrite Z.max_r by lia
                    | rewrite Z.min_l by lia | rewrite Z.min_r by lia].
  all: reflexivity.
Qed.

Lemma clamp_beg_windows (n : Z) (sf halfdur : float) (grid : list float) :
  clamp_beg (map (fun t => astype_int ((t - halfdur) * sf)%float) grid)
  = map (fun tc => fst (window_of n sf halfdur tc)) grid.
Proof.
  unfold clamp_beg. rewrite map_map. apply map_ext. intros tc. cbn [window_of fst].
  destruct (Z.ltb_spec (astype_int ((tc - halfdur) * sf)%float) 0); lia.
Qed.

Lemma clamp_end_windows (n : Z) (sf halfdur : float) (grid : list float) :
  clamp_end (n - 1) (map (fun t => astype_int ((t + halfdur) * sf)%float) grid)
  = map (fun tc => snd (window_of n sf halfdur tc)) grid.
Proof.
  unfold clamp_end. rewrite map_map. apply map_ext. intros tc. cbn [window_of snd].
  destruct (Z.ltb_spec (n - 1) (astype_int ((tc + halfdur) * sf)%float)); lia.
Qed.

(** What a successful call without interpolation returns: the grid
    exists, the times are the window midpoints, and the statistics are
    those of the loop over the windows. *)
Lemma moving_transform_ok (K : kernels) (x : list R) (y : option (list R))
    (sf window step : float) (method : string)
    (t : list float) (out : list npfloat) :
  moving_transform K x y sf window step method false = Ok (t, out) ->
  exists grid,
    moving_grid (Z.of_nat (length x)) sf step = Ok grid /\
    t = map (truncated_time (Z.of_nat (length x)) sf (window / 2)%float) grid /\
    length out = length grid /\
    (two_signals method = false ->
     epochs (fun b e => func1 K sf method (py_slice x b e))
       (map (fun tc => fst (window_of (Z.of_nat (length x)) sf (window / 2)%float tc)) grid)
       (map (fun tc => snd (window_of (Z.of_nat (length x)) sf (window / 2)%float tc)) grid)
     = Ok out).
Proof.
  unfold moving_transform. intros H.
  bind_ok H as u1 E1. bind_ok H as u2 E2.
  bind_ok H as step' Estep. bind_ok H as total Etot. bind_ok H as grid Egrid.
  bind_ok H as out0 Eout.
  injection H as <- <-.
  rewrite mid_times_grid.
  rewrite (clamp_beg_windows (Z.of_nat (length x))), clamp_end_windows in Eout.
  exists grid. split; [|split; [reflexivity|split]].
  - unfold moving_grid. rewrite Estep. cbn [bind]. rewrite Etot. cbn [bind].
    exact Egrid.
  - destruct (two_signals method); [destruct y as [y|]|].
    all: apply epochs_length in Eout; rewrite ?length_map in *; [exact Eout|reflexivity].
  - intros Hm. rewrite Hm in Eout. exact Eout.
Qed.

Lemma np_sum_replicate (c : R) (k : nat) : np_sum (replicate k c) = (INR k * c)%R.
Proof.
  induction k as [|k IH]; [simpl; lra|].
  cbn [replicate np_sum fold_right]. fold (np_sum (replicate k c)).
  rewrite IH, S_INR. lra.
Qed.

(** The mean of a constant window: the constant, or NaN when the window
    is empty. *)
Lemma np_mean_replicate (c : R) (k : nat) :
  np_mean (replicate k c) = if (0 <? k)%nat then Fin c else NaN.
Proof.
  destruct k as [|k]; [reflexivity|].
  change (np_mean (replicate (S k) c))
    with (Fin (np_sum (replicate (S k) c) / INR (length (replicate (S k) c)))).
  rewrite np_sum_replicate, length_replicate. cbn [Nat.ltb Nat.leb]. f_equal.
  field. apply not_0_INR. lia.
Qed.

Lemma py_slice_replicate (c : R) (n : nat) (b e : Z) :
  py_slice (replicate n c) b e = replicate (Z.to_nat (slice_length (Z.of_nat n) b e)) c.
Proof.
  unfold py_slice, slice_length. rewrite length_replicate.
  set (lo := slice_bound (Z.of_nat n) b). set (hi := slice_bound (Z.of_nat n) e).
  assert (0 <= lo <= Z.of_nat n /\ 0 <= hi <= Z.of_nat n) as Hb.
  { unfold lo, hi, slice_bound.
    repeat match goal with
           | |- context [?a <? ?b] => destruct (Z.ltb_spec a b)
           end; lia. }
  rewrite drop_replicate, take_replicate. f_equal. lia.
Qed.

Lemma mean_of_constant_window (c : R) (n : nat) (b e : Z) :
  np_mean (py_slice (replicate n c) b e) = constant_mean (Z.of_nat n) c (b, e).
Proof.
  rewrite py_slice_replicate, np_mean_replicate. unfold constant_mean. cbn [fst snd].
  destruct (Z.ltb_spec 0 (slice_length (Z.of_nat n) b e)),
           (Nat.ltb_spec 0 (Z.to_nat (slice_length (Z.of_nat n) b e)));
    try reflexivity; lia.
Qed.

(** With [method='mean'], a single signal and no interpolation the call
    returns as soon as the grid can be built. *)
Lemma moving_transform_mean_total (K : kernels) (x : list R)
    (sf window step : float) (grid : list float) :
  moving_grid (Z.of_nat (length x)) sf step = Ok grid ->
  moving_transform K x None sf window step "mean" false
  = Ok (map (truncated_time (Z.of_nat (length x)) sf (window / 2)%float) grid,
        map (fun tc =>
               np_mean (py_slice x
                          (fst (window_of (Z.of_nat (length x)) sf (window / 2)%float tc))
                          (snd (window_of (Z.of_nat (length x)) sf (window / 2)%float tc))))
            grid).
Proof.
  unfold moving_grid, moving_transform. intros H.
  bind_ok H as step' Estep. bind_ok H as total Etot.
  cbn [methods existsb String.eqb Ascii.eqb Bool.eqb orb py_assert bind].
  cbn [two_signals existsb String.eqb Ascii.eqb Bool.eqb orb].
  rewrite H. cbn [bind].
  rewrite mid_times_grid.
  rewrite (clamp_beg_windows (Z.of_nat (length x))), clamp_end_windows.
  rewrite (epochs_total _ (fun b e => np_mean (py_slice x b e)))
    by (intros b e; reflexivity).
  cbn [bind]. do 2 f_equal.
  clear. induction grid as [|tc grid IH]; [reflexivity|].
  cbn [map zip_with]. rewrite IH. reflexivity.
Qed.

(** Every window of a buffer of one sample (or of none) is empty: its
    end is at most [n - 1 <= 0], and the slice leaves the end out. *)
Lemma short_buffer_windows (n : Z) (b e : Z) :
  0 <= n <= 1 -> 0 <= b -> e <= n - 1 -> slice_length n b e = 0.
Proof.
  intros Hn Hb He. unfold slice_length.
  rewrite !slice_bound_clip by lia.
  destruct (Z.ltb_spec e 0), (Z.ltb_spec b 0); lia.
Qed.

(** C3 (as the source behaves). On a constant buffer of value [c], with
    [method='mean'] and no interpolation, the call returns as soon as
    the grid can be built, and the statistic of a window is [c] when the
    window [x[beg:end]] holds at least one sample and NaN when it holds
    none; the windows are those of the grid, converted and clamped as
    the source does. Every window of a one-sample buffer is empty. *)
Theorem mean_of_constant (K : kernels) (c : R) (n : nat) (sf window step : float) :
  (forall grid,
      moving_grid (Z.of_nat n) sf step = Ok grid ->
      moving_transform K (replicate n c) None sf window step "mean" false
      = Ok (map (truncated_time (Z.of_nat n) sf (window / 2)%float) grid,
            map (fun tc => constant_mean (Z.of_nat n) c
                             (window_of (Z.of_nat n) sf (window / 2)%float tc)) grid)) /\
  (forall t out,
      moving_transform K (replicate n c) None sf window step "mean" false = Ok (t, out) ->
      exists grid,
        moving_grid (Z.of_nat n) sf step = Ok grid /\
        out = map (fun tc => constant_mean (Z.of_nat n) c
                               (window_of (Z.of_nat n) sf (window / 2)%float tc)) grid /\
        Forall (fun v => v = Fin c \/ v = NaN) out) /\
  ((n <= 1)%nat ->
   forall tc,
     constant_mean (Z.of_nat n) c (window_of (Z.of_nat n) sf (window / 2)%float tc) = NaN).
Proof.
  assert (forall grid,
      moving_grid (Z.of_nat n) sf step = Ok grid ->
      moving_transform K (replicate n c) None sf window step "mean" false
      = Ok (map (truncated_time (Z.of_nat n) sf (window / 2)%float) grid,
            map (fun tc => constant_mean (Z.of_nat n) c
                             (window_of (Z.of_nat n) sf (window / 2)%float tc)) grid))
    as Htotal.
  { intros grid Hgrid.
    rewrite (moving_transform_mean_total K (replicate n c) sf window step grid)
      by (rewrite length_replicate; exact Hgrid).
    rewrite length_replicate. do 2 f_equal.
    apply map_ext. intros tc. apply mean_of_constant_window. }
  split; [exact Htotal|]. split.
  - intros t out H.
    apply moving_transform_ok in H as Hok. destruct Hok as (grid & Hgrid & _).
    rewrite length_replicate in Hgrid.
    rewrite (Htotal grid Hgrid) in H.
    assert (out = map (fun tc => constant_mean (Z.of_nat n) c
                         (window_of (Z.of_nat n) sf (window / 2)%float tc)) grid)
      as -> by congruence.
    exists grid. split; [exact Hgrid|]. split; [reflexivity|].
    apply Forall_forall. intros v Hv. apply list_elem_of_fmap in Hv as (tc & -> & _).
    unfold constant_mean. destruct (_ <? _); [left|right]; reflexivity.
  - intros Hn tc. unfold constant_mean, window_of. cbn [fst snd].
    rewrite short_buffer_windows by lia. reflexivity.
Qed.

Lemma float_neq (a b : float) : PrimFloat.Leibniz.eqb a b = false -> a <> b.
Proof.
  intros H Hab. apply FloatAxioms.Leibniz.eqb_spec in Hab. congruence.
Qed.

(** The time vector and the statistic vector have the same length. *)
Lemma moving_transform_lengths (K : kernels) (x : list R) (y : option (list R))
    (sf window step : float) (method : string)
    (t : list float) (out : list npfloat) :
  moving_transform K x y sf window step method false = Ok (t, out) ->
  length t = length out.
Proof.
  intros H. apply moving_transform_ok in H as (grid & _ & -> & Hout & _).
  rewrite length_map. symmetry. exact Hout.
Qed.

Lemma moving_transform_lengths_witness :
  length [0%float] = length [NaN].
Proof.
  apply (moving_transform_lengths idle_kernels [5%R] None 100 0.5 0.25 "mean").
  rewrite (moving_transform_mean_total idle_kernels [5%R] 100 0.5 0.25 [0%float])
    by (vm_compute; reflexivity).
  reflexivity.
Defined.

(** C3 (as stated) fails: a buffer that holds the single sample 5,
    [sf = 100], a window of 0.5 s and a step of 0.25 s. The only window
    is [x[0:0]], which is empty, and the statistic is NaN, not 5. *)
Lemma mean_of_single_sample_is_nan :
  (forall K : kernels,
      moving_transform K [5%R] None 100 0.5 0.25 "mean" false
      = Ok ([0%float], [NaN])) /\
  NaN <> Fin 5.
Proof.
  split; [|discriminate].
  intros K.
  rewrite (moving_transform_mean_total K [5%R] 100 0.5 0.25 [0%float])
    by (vm_compute; reflexivity).
  cbn [map]. f_equal.
Qed.

(** Ten samples of value 7 at 1 Hz, a window of 1.5 s and a step of 1 s:
    the call returns; the first window, [x[0:0]], is empty and gives
    NaN, the nine others give 7. *)
Lemma mean_of_constant_witness :
  exists t,
    moving_transform idle_kernels (replicate 10 7%R) None 1 1.5 1 "mean" false
    = Ok (t, NaN :: replicate 9 (Fin 7)).
Proof.
  eexists.
  rewrite (proj1 (mean_of_constant idle_kernels 7 10 1 1.5 1)
             (map Z2float (seqZ 0 10))) by (vm_compute; reflexivity).
  do 2 f_equal.
Defined.

(** C6 (as stated) fails: ten samples at 1 Hz, a window of 1.5 s and a
    step of 1 s. At the centre 3 s the ends are 2.25 and 3.75 samples:
    the source truncates them to 2 and 3 and reports 2.5 s, whereas
    rounding gives 2 and 4, that is 3 s. At the first centre the ends
    are -0.75 and 0.75: the source truncates both to 0 and reports 0 s,
    the centre itself, although the half window exceeds the margin;
    rounding would give 0.5 s. *)
Lemma truncation_is_not_rounding :
  (forall K : kernels,
      exists t out,
        moving_transform K (replicate 10 0%R) None 1 1.5 1 "mean" false = Ok (t, out) /\
        t !! 3%nat = Some 2.5%float /\
        t !! 0%nat = Some 0%float) /\
  moving_grid 10 1 1 = Ok (map Z2float (seqZ 0 10)) /\
  rounded_time 10 1 (1.5 / 2) 3 = 3%float /\
  rounded_time 10 1 (1.5 / 2) 0 = 0.5%float /\
  2.5%float <> 3%float.
Proof.
  split; [|split; [|split; [|split]]].
  - intros K. eexists _, _. split; [|split].
    + apply (moving_transform_mean_total K (replicate 10 0%R) 1 1.5 1
               (map Z2float (seqZ 0 10))).
      vm_compute. reflexivity.
    + vm_compute. reflexivity.
    + vm_compute. reflexivity.
  - vm_compute. reflexivity.
  - vm_compute. reflexivity.
  - vm_compute. reflexivity.
  - apply float_neq. vm_compute. reflexivity.
Qed.

(** C6 (as the source behaves). Without interpolation, the centres are
    the items of [np.arange(0, n / sf, step)] (with [step] replaced by
    [1 / sf] when it is 0), and the time reported for a centre [tc] is
    [(beg + end) / 2 / sf], where [beg] is [(tc - window/2) * sf]
    converted toward zero and raised to 0 when negative, and [end] is
    [(tc + window/2) * sf] converted toward zero and lowered to [n - 1]
    when larger: the midpoint of the clamped window, not the centre. A
    product that is NaN, infinite or outside [int64] converts to
    [-2^63]. *)
Theorem moving_times (K : kernels) (x : list R) (y : option (list R))
    (sf window step : float) (method : string)
    (t : list float) (out : list npfloat) :
  moving_transform K x y sf window step method false = Ok (t, out) ->
  exists step' total len grid,
    (if (step =? 0)%float then py_div 1 sf else Ok step) = Ok step' /\
    py_div (Z2float (Z.of_nat (length x))) sf = Ok total /\
    float_ceil ((total - 0) / step')%float = Some len /\
    grid = map (arange_item step') (seqZ 0 len) /\
    length t = length grid /\
    length out = length grid /\
    forall (i : nat) (tc : float),
      grid !! i = Some tc ->
      exists b e,
        b = Z.max 0 (to_int64 (toward_zero ((tc - window / 2) * sf)%float)) /\
        e = Z.min (Z.of_nat (length x) - 1)
                  (to_int64 (toward_zero ((tc + window / 2) * sf)%float)) /\
        0 <= b /\ e <= Z.of_nat (length x) - 1 /\
        t !! i = Some ((Z2float b + Z2float e) / 2 / sf)%float.
Proof.
  intros H. apply moving_transform_ok in H as (grid & Hgrid & -> & Hout & _).
  unfold moving_grid in Hgrid.
  bind_ok Hgrid as step' Estep. bind_ok Hgrid as total Etot.
  unfold np_arange_float in Hgrid.
  bind_ok Hgrid as q Eq.
  destruct (float_ceil q) as [len|] eqn:Elen; [|discriminate Hgrid].
  destruct ((int64_min <=? len) && (len <=? int64_max)); [|discriminate Hgrid].
  injection Hgrid as <-.
  unfold py_div in Eq. destruct (step' =? 0)%float; [discriminate Eq|].
  injection Eq as <-.
  exists step', total, len, (map (arange_item step') (seqZ 0 len)).
  repeat split; try assumption; try reflexivity.
  - rewrite !length_map. reflexivity.
  - intros i tc Hi. eexists _, _. split; [reflexivity|]. split; [reflexivity|].
    split; [lia|]. split; [lia|].
    rewrite list_lookup_fmap, Hi. cbn [fmap option_fmap option_map].
    unfold truncated_time, window_of. rewrite !astype_int_toward_zero. reflexivity.
Qed.

(** The call of the counterexample: the time reported for the centre
    3 s is 2.5 s. *)
Lemma moving_times_witness :
  exists t out,
    moving_transform idle_kernels (replicate 10 0%R) None 1 1.5 1 "mean" false
    = Ok (t, out) /\
    t !! 3%nat = Some ((Z2float 2 + Z2float 3) / 2 / 1)%float.
Proof.
  assert (moving_grid (Z.of_nat (length (replicate 10 0%R))) 1 1
          = Ok (map Z2float (seqZ 0 10))) as Hgrid by (vm_compute; reflexivity).
  pose proof (moving_transform_mean_total idle_kernels (replicate 10 0%R) 1 1.5 1
                _ Hgrid) as Hcall.
  destruct (moving_times idle_kernels _ _ _ _ _ _ _ _ Hcall)
    as (step' & total & len & grid & Hstep & Htot & Hlen & -> & _ & _ & Htime).
  vm_compute in Hstep. injection Hstep as <-.
  vm_compute in Htot. injection Htot as <-.
  vm_compute in Hlen. injection Hlen as <-.
  destruct (Htime 3%nat 3%float) as (b & e & -> & -> & _ & _ & Ht).
  { vm_compute. reflexivity. }
  eexists _, _. split; [exact Hcall|].
  rewrite Ht. vm_compute. reflexivity.
Defined.

(** *** Windows, errors and interpolation *)

Lemma bind_ext {A B : Type} (m : result A) (k k' : A -> result B) :
  (forall a, k a = k' a) -> bind m k = bind m k'.
Proof. intros H. destruct m; [apply H|reflexivity]. Qed.

Lemma epochs_ext (f g : Z -> Z -> result npfloat) (last : Z) (beg en : list Z) :
  (forall b e, e <= last -> f b e = g b e) ->
  Forall (fun e => e <= last) en ->
  epochs f beg en = epochs g beg en.
Proof.
  intros Hfg. revert en. induction beg as [|b beg IH]; intros [|e en] Hen; try reflexivity.
  apply Forall_cons in Hen as (He & Hen).
  cbn [epochs]. rewrite (Hfg b e He), (IH en Hen). reflexivity.
Qed.

Lemma clamp_end_le (last : Z) (en : list Z) :
  Forall (fun e => e <= last) (clamp_end last en).
Proof.
  unfold clamp_end. apply Forall_forall. intros e He.
  apply list_elem_of_fmap in He as (e0 & -> & _).
  destruct (Z.ltb_spec last e0); lia.
Qed.

(** The last sample of the buffer is never read: every window ends at
    or before position [n - 1], which the slice [x[beg:end]] leaves out.
    Two buffers that differ only in their last sample give the same
    result, whatever the method and the other arguments. *)
Lemma last_sample_is_never_read (K : kernels) (x : list R) (v v' : R)
    (y : option (list R)) (sf window step : float) (method : string) (interp : bool) :
  moving_transform K (x ++ [v]) y sf window step method interp
  = moving_transform K (x ++ [v']) y sf window step method interp.
Proof.
  unfold moving_transform. rewrite !length_app. cbn [length].
  apply bind_ext; intros _. apply bind_ext; intros _.
  apply bind_ext; intros step'. apply bind_ext; intros total.
  apply bind_ext; intros grid.
  set (beg := clamp_beg _). set (en := clamp_end _ _).
  assert (Forall (fun e => e <= Z.of_nat (length x)) en) as Hen.
  { unfold en. replace (Z.of_nat (length x)) with (Z.of_nat (length x + 1) - 1) by lia.
    apply clamp_end_le. }
  f_equal. destruct (two_signals method).
  - destruct y as [y|]; [|reflexivity].
    apply (epochs_ext _ _ (Z.of_nat (length x))); [|exact Hen].
    intros b e He. rewrite (py_slice_without_last x v v' b e He). reflexivity.
  - apply (epochs_ext _ _ (Z.of_nat (length x))); [|exact Hen].
    intros b e He. rewrite (py_slice_without_last x v v' b e He). reflexivity.
Qed.

(** The call with a single-signal method, once the method is accepted
    and the grid is built: the loop over the windows of the grid. *)
Lemma moving_transform_single (K : kernels) (x : list R) (y : option (list R))
    (sf window step : float) (method : string) (grid : list float) :
  method ∈ methods ->
  two_signals method = false ->
  (forall y', y = Some y' -> length y' = length x) ->
  moving_grid (Z.of_nat (length x)) sf step = Ok grid ->
  moving_transform K x y sf window step method false
  = let* out :=
      epochs (fun b e => func1 K sf method (py_slice x b e))
        (map (fun tc => fst (window_of (Z.of_nat (length x)) sf (window / 2)%float tc)) grid)
        (map (fun tc => snd (window_of (Z.of_nat (length x)) sf (window / 2)%float tc)) grid) in
    Ok (map (truncated_time (Z.of_nat (length x)) sf (window / 2)%float) grid, out).
Proof.
  intros Hm H2 Hy Hgrid. unfold moving_grid in Hgrid. unfold moving_transform.
  assert (existsb (String.eqb method) methods = true) as ->.
  { apply existsb_exists. exists method. split; [apply list_elem_of_In, Hm|].
    apply String.eqb_refl. }
  cbn [py_assert bind].
  assert (match y with
          | Some y0 => py_assert (length x =? length y0)%nat
          | None => Ok tt
          end = Ok tt) as ->.
  { destruct y as [y'|]; [|reflexivity]. rewrite (Hy y' eq_refl), Nat.eqb_refl. reflexivity. }
  cbn [bind].
  bind_ok Hgrid as step' Estep. bind_ok Hgrid as total Etot.
  cbn [bind]. rewrite Hgrid. cbn [bind]. rewrite H2.
  rewrite mid_times_grid.
  rewrite (clamp_beg_windows (Z.of_nat (length x))), clamp_end_windows.
  reflexivity.
Qed.

Lemma epochs_raise (f : Z -> Z -> result npfloat) (ex : exn) (beg en : list Z)
    (i : nat) (b e : Z) :
  (forall b e, f b e = Raise ex \/ exists v, f b e = Ok v) ->
  beg !! i = Some b -> en !! i = Some e -> f b e = Raise ex ->
  epochs f beg en = Raise ex.
Proof.
  intros Hf. revert en i. induction beg as [|b0 beg IH]; intros [|e0 en] i Hb He Hr;
    try discriminate.
  cbn [epochs]. destruct i as [|i].
  - injection Hb as ->. injection He as ->. rewrite Hr. reflexivity.
  - destruct (Hf b0 e0) as [->|(v & ->)]; [reflexivity|]. cbn [bind].
    rewrite (IH en i Hb He Hr). reflexivity.
Qed.

Lemma py_slice_empty {A : Type} (l : list A) (b e : Z) :
  slice_length (Z.of_nat (length l)) b e = 0 -> py_slice l b e = [].
Proof.
  unfold slice_length. intros H. apply length_zero_iff_nil.
  rewrite length_py_slice. lia.
Qed.

(** A window without a sample makes the call fail for four methods:
    ['min'], ['max'] and ['ptp'] raise [ValueError] (a reduction of an
    empty array), ['prop_above_zero'] raises [ZeroDivisionError]
    ([0 / 0] on Python ints); ['mean'] gives NaN instead. *)
Lemma empty_window_raises (K : kernels) (x : list R) (y : option (list R))
    (sf window step : float) (method : string) (interp : bool)
    (grid : list float) (tc : float) :
  (forall y', y = Some y' -> length y' = length x) ->
  moving_grid (Z.of_nat (length x)) sf step = Ok grid ->
  tc ∈ grid ->
  slice_length (Z.of_nat (length x))
    (fst (window_of (Z.of_nat (length x)) sf (window / 2)%float tc))
    (snd (window_of (Z.of_nat (length x)) sf (window / 2)%float tc)) = 0 ->
  (method ∈ ["min"; "max"; "ptp"]%string ->
   moving_transform K x y sf window step method interp = Raise ValueError) /\
  (method = "prop_above_zero"%string ->
   moving_transform K x y sf window step method interp = Raise ZeroDivisionError).
Proof.
  intros Hy Hgrid Htc Hempty.
  apply list_elem_of_lookup in Htc as (i & Hi).
  apply py_slice_empty in Hempty.
  assert (forall ex,
    method ∈ methods -> two_signals method = false ->
    (forall w, func1 K sf method w = Raise ex \/ exists v, func1 K sf method w = Ok v) ->
    func1 K sf method [] = Raise ex ->
    moving_transform K x y sf window step method interp = Raise ex) as Hall.
  { intros ex Hm H2 Hf Hnil.
    assert (moving_transform K x y sf window step method false = Raise ex) as Hfalse.
    { rewrite (moving_transform_single K x y sf window step method grid Hm H2 Hy Hgrid).
      erewrite (epochs_raise _ ex _ _ i); [reflexivity| | | |].
      - intros b e. apply Hf.
      - rewrite list_lookup_fmap, Hi. reflexivity.
      - rewrite list_lookup_fmap, Hi. reflexivity.
      - cbn beta. rewrite Hempty. exact Hnil. }
    destruct interp; [|exact Hfalse].
    revert Hfalse. unfold moving_transform.
    repeat (let m := fresh "m" in
            match goal with
            | |- bind ?m0 _ = _ -> bind ?m0 _ = _ =>
                destruct m0; cbn [bind]; [|exact (fun H => H)]
            end).
    discriminate. }
  split.
  - intros Hm.
    assert (method = "min" \/ method = "max" \/ method = "ptp")%string as Hcases.
    { rewrite !elem_of_cons, elem_of_nil in Hm. tauto. }
    clear Hm.
    destruct Hcases as [-> | [-> | ->]]; apply Hall; try reflexivity.
    all: try (apply list_elem_of_In; simpl; auto 12).
    all: intros w; (destruct w; [left; reflexivity|right; eexists; reflexivity]).
  - intros ->. apply Hall; try reflexivity.
    + apply list_elem_of_In; simpl; auto 12.
    + intros w. destruct w; [left; reflexivity|right; eexists; reflexivity].
Qed.

Lemma empty_window_raises_witness :
  moving_transform idle_kernels [5%R] None 100 0.5 0.25 "min" false = Raise ValueError.
Proof.
  apply (proj1 (empty_window_raises idle_kernels [5%R] None 100 0.5 0.25 "min" false
                  [0%float] 0%float
                  ltac:(discriminate) ltac:(vm_compute; reflexivity)
                  ltac:(left) ltac:(vm_compute; reflexivity))).
  left.
Defined.

Lemma epochs_Forall (P : npfloat -> Prop) (f : Z -> Z -> result npfloat)
    (beg en : list Z) (out : list npfloat) :
  (forall b e v, f b e = Ok v -> P v) ->
  epochs f beg en = Ok out -> Forall P out.
Proof.
  intros Hf. revert en out.
  induction beg as [|b beg IH]; intros [|e en] out; try (intros [= <-]; constructor).
  cbn [epochs]. intros H. bind_ok H as v Hv. bind_ok H as o Ho.
  injection H as <-. constructor; [apply (Hf b e v Hv)|apply (IH en o Ho)].
Qed.

Lemma Forall_py_slice {A : Type} (P : A -> Prop) (l : list A) (b e : Z) :
  Forall P l -> Forall P (py_slice l b e).
Proof. intros H. unfold py_slice. apply Forall_take, Forall_drop, H. Qed.

Lemma length_filter_le {A : Type} (P : A -> bool) (l : list A) :
  (length (List.filter P l) <= length l)%nat.
Proof.
  induction l as [|a l IH]; [reflexivity|].
  cbn [List.filter]. destruct (P a); cbn [length]; lia.
Qed.

Lemma prop_above_zero_ok (w : list R) (v : npfloat) :
  prop_above_zero w = Ok v ->
  w <> [] /\
  v = Fin (INR (length (List.filter (fun u => bool_decide (0 <= u)%R) w)) / INR (length w)).
Proof.
  unfold prop_above_zero. destruct w as [|a w]; [discriminate|].
  intros H. split; [discriminate|congruence].
Qed.

(** ['prop_above_zero'] returns, for every window, a proportion between
    0 and 1; a sample equal to zero counts as above zero, so that a
    signal without a negative sample gives 1 everywhere. *)
Lemma proportion_above_zero (K : kernels) (x : list R) (y : option (list R))
    (sf window step : float) (t : list float) (out : list npfloat) :
  moving_transform K x y sf window step "prop_above_zero" false = Ok (t, out) ->
  Forall (fun v => exists p, v = Fin p /\ (0 <= p <= 1)%R) out /\
  (Forall (fun s => 0 <= s)%R x -> Forall (fun v => v = Fin 1) out).
Proof.
  intros H. apply moving_transform_ok in H as (grid & _ & _ & _ & H).
  specialize (H eq_refl).
  split; [|intros Hx]; (eapply epochs_Forall; [|exact H]).
  - intros b e v. cbn beta. unfold func1. cbn [String.eqb Ascii.eqb Bool.eqb].
    intros Hv. apply prop_above_zero_ok in Hv as (Hne & ->).
    set (w := py_slice x b e) in *.
    eexists. split; [reflexivity|].
    pose proof (length_filter_le (fun v => bool_decide (0 <= v)%R) w) as Hle.
    apply le_INR in Hle.
    pose proof (pos_INR (length (List.filter (fun v => bool_decide (0 <= v)%R) w))).
    assert (0 < INR (length w))%R as Hpos.
    { apply lt_0_INR. destruct w; [congruence|simpl; lia]. }
    split.
    + apply Rmult_le_pos; [assumption|]. left. apply Rinv_0_lt_compat, Hpos.
    + apply (Rmult_le_reg_r (INR (length w))); [exact Hpos|].
      unfold Rdiv. rewrite Rmult_assoc, Rinv_l by lra. lra.
  - intros b e v. cbn beta. unfold func1. cbn [String.eqb Ascii.eqb Bool.eqb].
    intros Hv. apply prop_above_zero_ok in Hv as (Hne & ->).
    pose proof (Forall_py_slice _ x b e Hx) as Hw.
    set (w := py_slice x b e) in *.
    f_equal. rewrite CenteredFacts.filter_keeps_all.
    + apply Rinv_r. apply not_0_INR. destruct w; [congruence|discriminate].
    + apply Forall_forall. intros u Hu. rewrite Forall_forall in Hw.
      apply bool_decide_eq_true_2, Hw, Hu.
Qed.

Lemma proportion_above_zero_witness :
  exists t out,
    moving_transform idle_kernels [1; 0; 2]%R None 1 2 1 "prop_above_zero" false
    = Ok (t, out) /\
    Forall (fun v => v = Fin 1) out /\ length out = 3%nat.
Proof.
  eassert (moving_transform idle_kernels [1; 0; 2]%R None 1 2 1 "prop_above_zero" false
           = Ok (_, [_; _; _])) as Hcall.
  { rewrite (moving_transform_single idle_kernels [1; 0; 2]%R None 1 2 1
               "prop_above_zero" [0; 1; 2]%float);
      [|apply list_elem_of_In; simpl; auto 12|reflexivity|discriminate
       |vm_compute; reflexivity].
    reflexivity. }
  eexists _, _. split; [exact Hcall|]. split; [|reflexivity].
  apply (proportion_above_zero _ _ _ _ _ _ _ _ Hcall).
  repeat constructor; lra.
Defined.

(** What the checks on the arguments raise: [AssertionError] for a
    method that is not one of the nine names and for a second signal of
    another length than the first; [ZeroDivisionError] for a sampling
    frequency of 0. *)
Lemma invalid_arguments_raise (K : kernels) (x : list R) (y : option (list R))
    (sf window step : float) (method : string) (interp : bool) :
  (~ method ∈ methods ->
   moving_transform K x y sf window step method interp = Raise AssertionError) /\
  (forall y', y = Some y' -> length y' <> length x ->
   moving_transform K x y sf window step method interp = Raise AssertionError) /\
  (method ∈ methods ->
   (forall y', y = Some y' -> length y' = length x) ->
   (sf =? 0)%float = true ->
   moving_transform K x y sf window step method interp = Raise ZeroDivisionError).
Proof.
  unfold moving_transform. split; [|split].
  - intros Hm.
    assert (existsb (String.eqb method) methods = false) as ->; [|reflexivity].
    apply not_true_is_false. intros H. apply existsb_exists in H as (m & Hin & Heq).
    apply String.eqb_eq in Heq as <-. apply Hm, list_elem_of_In, Hin.
  - intros y' -> Hlen.
    destruct (existsb (String.eqb method) methods); [|reflexivity]. cbn [py_assert bind].
    assert ((length x =? length y')%nat = false) as ->; [|reflexivity].
    apply Nat.eqb_neq. congruence.
  - intros Hm Hy Hsf.
    assert (existsb (String.eqb method) methods = true) as ->.
    { apply existsb_exists. exists method. split; [apply list_elem_of_In, Hm|].
      apply String.eqb_refl. }
    cbn [py_assert bind].
    assert (match y with
            | Some y0 => py_assert (length x =? length y0)%nat
            | None => Ok tt
            end = Ok tt) as ->.
    { destruct y as [y'|]; [|reflexivity]. rewrite (Hy y' eq_refl), Nat.eqb_refl. reflexivity. }
    cbn [bind]. unfold py_div. rewrite Hsf.
    destruct (step =? 0)%float; reflexivity.
Qed.

Lemma invalid_arguments_raise_witness :
  moving_transform idle_kernels [1; 2]%R None 0 0.5 0.25 "mean" false
  = Raise ZeroDivisionError.
Proof.
  apply (proj2 (proj2 (invalid_arguments_raise idle_kernels [1; 2]%R None 0 0.5 0.25
                         "mean" false))).
  - apply list_elem_of_In. simpl. auto 12.
  - discriminate.
  - reflexivity.
Defined.

(** The call with [interp=True] is the call with [interp=False],
    followed by the cubic interpolation of its result at the times
    [i / sf] of the [n] samples; the interpolation is left out when the
    step ([1 / sf] for [step = 0]) compares equal to [1 / sf]. *)
Lemma interpolation_follows_transform (K : kernels) (x : list R) (y : option (list R))
    (sf window step : float) (method : string)
    (t : list float) (out : list npfloat) :
  moving_transform K x y sf window step method true = Ok (t, out) ->
  exists step' t0 out0,
    (if (step =? 0)%float then py_div 1 sf else Ok step) = Ok step' /\
    moving_transform K x y sf window step method false = Ok (t0, out0) /\
    if (step' =? 1 / sf)%float then t = t0 /\ out = out0
    else t = map (fun i => (Z2float i / sf)%float) (seqZ 0 (Z.of_nat (length x))) /\
         length t = length x /\
         interp1d_cubic K t0 out0 t = Ok out.
Proof.
  unfold moving_transform. intros H.
  bind_ok H as u1 E1. bind_ok H as u2 E2.
  bind_ok H as step' Estep. bind_ok H as total Etot. bind_ok H as grid Egrid.
  bind_ok H as out0 Eout. bind_ok H as inv Einv.
  assert ((sf =? 0)%float = false) as Esf.
  { unfold py_div in Einv. destruct (sf =? 0)%float; [discriminate Einv|reflexivity]. }
  unfold py_div in Einv. rewrite Esf in Einv. injection Einv as <-.
  eexists step', _, out0.
  split; [reflexivity|].
  split; [cbn [bind]; rewrite Egrid; cbn [bind]; rewrite Eout; reflexivity|].
  destruct (step' =? 1 / sf)%float; cbn [negb] in H.
  - injection H as <- <-. split; reflexivity.
  - bind_ok H as out' Eint. injection H as <- <-.
    split; [reflexivity|]. split; [|exact Eint].
    rewrite length_map, length_seqZ. lia.
Qed.

Lemma interpolation_follows_transform_witness :
  exists t out,
    moving_transform idle_kernels (replicate 10 0%R) None 1 4 2 "mean" true = Ok (t, out) /\
    length t = 10%nat.
Proof.
  eassert (moving_transform idle_kernels (replicate 10 0%R) None 1 4 2 "mean" true
           = Ok (_, _)) as Hcall by reflexivity.
  destruct (interpolation_follows_transform _ _ _ _ _ _ _ _ _ Hcall)
    as (step' & t0 & out0 & Hstep & _ & Hcases).
  injection Hstep as <-.
  change (2 =? 1 / 1)%float with false in Hcases.
  eexists _, _. split; [exact Hcall|]. apply Hcases.
Defined.

(** An empty buffer gives two empty vectors, for every method: the grid
    [np.arange(0, 0 / sf, step)] is empty and no window is evaluated. *)
Lemma empty_buffer_gives_empty_vectors (K : kernels) (y : option (list R))
    (sf window step : float) (method : string) :
  method ∈ methods ->
  y = Some [] \/ (y = None /\ two_signals method = false) ->
  PrimFloat.is_nan sf = false -> (sf =? 0)%float = false ->
  PrimFloat.is_nan step = false -> (step =? 0)%float = false ->
  moving_transform K [] y sf window step method false = Ok ([], []).
Proof.
  intros Hm Hy Hsfn Hsf Hstn Hst. unfold moving_transform.
  assert (existsb (String.eqb method) methods = true) as ->.
  { apply existsb_exists. exists method. split; [apply list_elem_of_In, Hm|].
    apply String.eqb_refl. }
  cbn [py_assert bind].
  assert (match y with
          | Some y0 => py_assert (length (@nil R) =? length y0)%nat
          | None => Ok tt
          end = Ok tt) as ->.
  { destruct Hy as [->|[-> _]]; reflexivity. }
  cbn [bind]. rewrite Hst. cbn [bind length Z.of_nat Z2float].
  unfold py_div at 1. rewrite Hsf. cbn [bind].
  unfold np_arange_float, py_div. rewrite Hst. cbn [bind].
  destruct (zero_div PrimFloat.zero sf false eq_refl Hsfn Hsf) as (s1 & H1).
  destruct (zero_sub_0 _ _ H1) as (s2 & H2).
  destruct (zero_div _ step _ H2 Hstn Hst) as (s3 & H3).
  change (Z2float (Z.of_nat 0)) with PrimFloat.zero.
  unfold float_ceil. rewrite H3. cbn [seqZ map bind clamp_beg clamp_end mid_times zip_with].
  change (seqZ 0 0) with (@nil Z). cbn [map zip_with epochs bind].
  destruct (two_signals method) eqn:E2.
  - destruct Hy as [->|[_ Hf]]; [reflexivity|discriminate Hf].
  - reflexivity.
Qed.

Lemma empty_buffer_gives_empty_vectors_witness :
  moving_transform idle_kernels [] None 100 0.5 0.25 "ptp" false = Ok ([], []).
Proof.
  apply (empty_buffer_gives_empty_vectors idle_kernels None 100 0.5 0.25 "ptp").
  - apply list_elem_of_In. simpl. auto 12.
  - right. split; reflexivity.
  - reflexivity.
  - reflexivity.
  - reflexivity.
  - reflexivity.
Defined.

End MovingFacts.

(** ** _zerocrossings *)

Module ZeroCrossFacts.
Import ZeroCross Spec SliceFacts.

Lemma zip_with_take_fit {A B C : Type} (f : A -> B -> C) (n : nat) (l : list A) (r : list B) :
  (length r <= n)%nat -> zip_with f (take n l) r = zip_with f l r.
Proof.
  revert l r. induction n as [|n IH]; intros l r Hn.
  - destruct r; [|simpl in Hn; lia]. destruct l; reflexivity.
  - destruct l as [|a l]; [reflexivity|]. destruct r as [|b r]; [reflexivity|].
    simpl. f_equal. apply IH. simpl in Hn. lia.
Qed.

Lemma mask_changes (k : Z) (x : list R) :
  nonzero_from k
    (np_or (np_and (np_greater_0 x) (drop 1 (np_invert (np_greater_0 x))))
           (np_and (np_invert (np_greater_0 x)) (drop 1 (np_greater_0 x))))
  = sign_changes_from k x.
Proof.
  unfold np_or, np_and, np_invert, np_greater_0.
  revert k. induction x as [|a x IH]; intros k; [reflexivity|].
  destruct x as [|b x]; [reflexivity|].
  cbn [map drop zip_with nonzero_from sign_changes_from] in *.
  rewrite <- IH. f_equal.
  destruct (bool_decide (0 < a)%R), (bool_decide (0 < b)%R); reflexivity.
Qed.

Lemma zerocrossings_changes (x : list R) :
  _zerocrossings x = sign_changes_from 0 x.
Proof.
  unfold _zerocrossings, np_nonzero.
  rewrite !py_slice_init.
  rewrite !py_slice_tail by (unfold np_invert, np_greater_0; rewrite ?length_map; reflexivity).
  unfold np_or, np_and.
  rewrite !zip_with_take_fit
    by (unfold np_invert, np_greater_0; rewrite length_drop, !length_map; lia).
  apply mask_changes.
Qed.

Lemma sign_changes_from_step (k : Z) (a b : R) (x : list R) :
  sign_changes_from k (a :: b :: x)
  = (if xorb (bool_decide (0 < a)%R) (bool_decide (0 < b)%R) then [k] else [])
    ++ sign_changes_from (k + 1) (b :: x).
Proof. reflexivity. Qed.

Lemma sign_changes_from_ge (k z : Z) (x : list R) :
  z ∈ sign_changes_from k x -> k <= z.
Proof.
  revert k. induction x as [|a x IH]; intros k Hz; [inversion Hz|].
  destruct x as [|b x]; [inversion Hz|].
  rewrite sign_changes_from_step in Hz. apply elem_of_app in Hz as [Hz|Hz].
  - destruct (xorb _ _); [apply list_elem_of_singleton in Hz; lia|inversion Hz].
  - apply IH in Hz. lia.
Qed.

Lemma sign_changes_from_sorted (k : Z) (x : list R) :
  StronglySorted Z.lt (sign_changes_from k x).
Proof.
  revert k. induction x as [|a x IH]; intros k; [constructor|].
  destruct x as [|b x]; [constructor|].
  rewrite sign_changes_from_step. destruct (xorb _ _); [|apply IH].
  constructor; [apply IH|].
  apply Forall_forall. intros z Hz. apply sign_changes_from_ge in Hz. lia.
Qed.

Lemma xorb_positive (a b : R) :
  xorb (bool_decide (0 < a)%R) (bool_decide (0 < b)%R) = true <->
  (0 < a /\ b <= 0)%R \/ (a <= 0 /\ 0 < b)%R.
Proof.
  destruct (bool_decide_reflect (0 < a)%R), (bool_decide_reflect (0 < b)%R);
    cbn [xorb]; split; try discriminate; try reflexivity; try lra.
  all: right + left; lra.
Qed.

Lemma elem_of_sign_changes (k i : Z) (x : list R) :
  i ∈ sign_changes_from k x <->
  k <= i /\
  exists a b, x !! Z.to_nat (i - k) = Some a /\ x !! Z.to_nat (i - k + 1) = Some b /\
    ((0 < a /\ b <= 0)%R \/ (a <= 0 /\ 0 < b)%R).
Proof.
  revert k. induction x as [|a x IH]; intros k.
  - split; [intros H; inversion H|]. intros (_ & u & v & H & _). discriminate H.
  - destruct x as [|b x].
    + split; [intros H; inversion H|]. intros (Hk & u & v & _ & H & _).
      replace (Z.to_nat (i - k + 1)) with (S (Z.to_nat (i - k))) in H by lia.
      discriminate H.
    + rewrite sign_changes_from_step. rewrite elem_of_app, IH. split.
      * intros [Hi|(Hk & u & v & Hu & Hv & Huv)].
        -- destruct (xorb _ _) eqn:E; [|inversion Hi].
           apply list_elem_of_singleton in Hi as ->. split; [lia|].
           replace (k - k) with 0 by lia. exists a, b.
           split; [reflexivity|]. split; [reflexivity|]. apply xorb_positive, E.
        -- split; [lia|]. exists u, v.
           replace (Z.to_nat (i - k)) with (S (Z.to_nat (i - (k + 1)))) by lia.
           replace (Z.to_nat (i - k + 1)) with (S (Z.to_nat (i - (k + 1) + 1))) by lia.
           auto.
      * intros (Hk & u & v & Hu & Hv & Huv).
        destruct (decide (i = k)) as [->|Hne].
        -- left. replace (k - k) with 0 in * by lia.
           injection Hu as <-. injection Hv as <-.
           apply xorb_positive in Huv. rewrite Huv. left.
        -- right. split; [lia|]. exists u, v.
           replace (Z.to_nat (i - k)) with (S (Z.to_nat (i - (k + 1)))) in Hu by lia.
           replace (Z.to_nat (i - k + 1)) with (S (Z.to_nat (i - (k + 1) + 1))) in Hv by lia.
           auto.
Qed.

(** The indices that [_zerocrossings] returns are strictly increasing,
    and [i] is one of them exactly when [x[i]] and [x[i + 1]] both exist
    and lie on different sides of the test [v > 0]: one is positive and
    the other is zero or negative. *)
Lemma zerocrossings_positions (x : list R) :
  StronglySorted Z.lt (_zerocrossings x) /\
  forall i : Z,
    i ∈ _zerocrossings x <->
    0 <= i /\
    exists a b, x !! Z.to_nat i = Some a /\ x !! Z.to_nat (i + 1) = Some b /\
      ((0 < a /\ b <= 0)%R \/ (a <= 0 /\ 0 < b)%R).
Proof.
  rewrite zerocrossings_changes. split; [apply sign_changes_from_sorted|].
  intros i. rewrite elem_of_sign_changes, Z.sub_0_r. reflexivity.
Qed.

Lemma sign_changes_none (k : Z) (x : list R) :
  sign_changes_from k x = [] <->
  Forall (fun v => 0 < v)%R x \/ Forall (fun v => v <= 0)%R x.
Proof.
  revert k. induction x as [|a x IH]; intros k.
  - split; [left; constructor|reflexivity].
  - destruct x as [|b x].
    + split; [|reflexivity]. intros _.
      destruct (Rlt_le_dec 0 a); [left|right]; constructor; auto.
    + rewrite sign_changes_from_step. split.
      * intros H. apply app_eq_nil in H as (H1 & H2).
        apply IH in H2.
        destruct (xorb _ _) eqn:E; [discriminate H1|].
        assert (~ ((0 < a /\ b <= 0)%R \/ (a <= 0 /\ 0 < b)%R)) as Hab.
        { rewrite <- xorb_positive, E. discriminate. }
        destruct H2 as [H2|H2]; [left|right]; constructor; try exact H2.
        -- apply Forall_cons in H2 as (Hb & _). lra.
        -- apply Forall_cons in H2 as (Hb & _). lra.
      * intros H.
        assert (xorb (bool_decide (0 < a)%R) (bool_decide (0 < b)%R) = false) as ->.
        { apply not_true_is_false. rewrite xorb_positive.
          destruct H as [H|H]; apply Forall_cons in H as (Ha & H);
            apply Forall_cons in H as (Hb & _); lra. }
        apply IH. destruct H as [H|H]; apply Forall_cons in H as (_ & H); auto.
Qed.

(** [_zerocrossings] reports no index exactly when all samples are
    positive or all samples are zero or negative (as for an empty or a
    one-sample array). *)
Lemma no_crossing_iff_one_side (x : list R) :
  _zerocrossings x = [] <->
  Forall (fun v => 0 < v)%R x \/ Forall (fun v => v <= 0)%R x.
Proof. rewrite zerocrossings_changes. apply sign_changes_none. Qed.

Lemma sign_changes_map (f : R -> R) (flip : bool) (k : Z) (x : list R) :
  Forall (fun v => bool_decide (0 < f v)%R = xorb flip (bool_decide (0 < v)%R)) x ->
  sign_changes_from k (map f x) = sign_changes_from k x.
Proof.
  revert k. induction x as [|a x IH]; intros k H; [reflexivity|].
  destruct x as [|b x]; [reflexivity|].
  apply Forall_cons in H as (Ha & H). pose proof H as Hb.
  apply Forall_cons in Hb as (Hb & _).
  change (map f (a :: b :: x)) with (f a :: f b :: map f x).
  rewrite !sign_changes_from_step. rewrite Ha, Hb.
  change (f b :: map f x) with (map f (b :: x)). rewrite (IH _ H). f_equal.
  destruct flip, (bool_decide (0 < a)%R), (bool_decide (0 < b)%R); reflexivity.
Qed.

(** The crossings do not depend on the unit of the samples: multiplying
    every sample by a positive factor leaves the result unchanged, and
    so does a negative factor when no sample is exactly zero (a zero
    sample counts as negative, so that a sign flip moves it to the other
    side only in the second case). *)
Lemma zerocrossings_scale (c : R) (x : list R) :
  (0 < c)%R \/ (c < 0)%R /\ Forall (fun v => v <> 0%R) x ->
  _zerocrossings (map (Rmult c) x) = _zerocrossings x.
Proof.
  intros Hc. rewrite !zerocrossings_changes.
  destruct Hc as [Hc|(Hc & Hx)].
  - apply (sign_changes_map _ false). apply Forall_forall. intros v _.
    cbn [xorb]. apply bool_decide_ext. split; intros; nra.
  - apply (sign_changes_map _ true). apply Forall_forall. intros v Hv.
    rewrite Forall_forall in Hx. specialize (Hx v Hv).
    cbn [xorb]. destruct (bool_decide_reflect (0 < v)%R) as [Hp|Hp]; cbn [negb].
    + apply bool_decide_eq_false_2. nra.
    + apply bool_decide_eq_true_2. nra.
Qed.

Lemma zerocrossings_scale_witness :
  _zerocrossings (map (Rmult (-2)) [1; -1; 3]%R) = _zerocrossings [1; -1; 3]%R.
Proof.
  apply (zerocrossings_scale (-2) [1; -1; 3]%R).
  right. split; [lra|]. repeat constructor; lra.
Defined.

Ltac decide_signs :=
  repeat match goal with
         | |- context [bool_decide (?a < ?b)%R] =>
             first [ rewrite (bool_decide_eq_true_2 (a < b)%R) by lra
                   | rewrite (bool_decide_eq_false_2 (a < b)%R) by lra ]
         end.

(** The example of the docstring, and a signal that touches zero: the
    zero sample counts as negative, so the signal [1, 0, 1] has two
    crossings and [-1, 0, -1] none. *)
Example zerocrossings_docstring :
  _zerocrossings [4; 2; -1; -3; 1; 2; 3; -2; -5]%R = [1; 3; 6] /\
  _zerocrossings [1; 0; 1]%R = [0; 1] /\
  _zerocrossings [-1; 0; -1]%R = [].
Proof.
  rewrite !zerocrossings_changes. cbn [sign_changes_from]. decide_signs.
  repeat split.
Qed.

End ZeroCrossFacts.
